(** * naro-backend: the request handlers of [handler/handler.go]

    A shallow embedding of the Go package [handler] and a verification of
    its endpoint contracts.

    The handlers talk to four collaborators that live outside the package:
    echo's request binder, the SQL database behind [h.db], bcrypt, and the
    session store.  Every call to one of them is an _event_ of a small
    program monad; a handler is a program that issues events and ends in an
    outcome.  Running a program against an environment gives the outcome
    together with the trace of the calls that were made, in order, so that
    both "what is answered" and "what is asked, and when" can be stated.

    Calls to [log.Printf], [log.Println] and [println] write to the server's
    own log and are invisible to the client; they are left out. *)

From stdpp Require Import base numbers option list gmap strings sorting.

Local Open Scope Z_scope.
Local Open Scope string_scope.

(** ** Go values *)

(** The errors the handlers tell apart with [errors.Is]: [sql.ErrNoRows],
    [bcrypt.ErrMismatchedHashAndPassword], and any other error with its
    message. *)
Inductive error : Type :=
  | ErrNoRows
  | ErrMismatchedHashAndPassword
  | ErrOther (msg : string).

Global Instance error_eq_dec : EqDecision error.
Proof. solve_decision. Defined.

(** A Go call that returns [(T, error)]. *)
Inductive result (T : Type) : Type :=
  | Ok (v : T)
  | Err (err : error).
Global Arguments Ok {T} v.
Global Arguments Err {T} err.

(** A value of type [interface{}], as held by [sess.Values] and by the
    store of [echo.Context]: the nil interface, or a value of some dynamic
    type.  [int] and [bool] stand for the dynamic types other than
    [string]. *)
Inductive GoValue : Type :=
  | VNil
  | VString (s : string)
  | VInt (n : Z)
  | VBool (b : bool).

Global Instance GoValue_eq_dec : EqDecision GoValue.
Proof. solve_decision. Defined.

(** [database/sql]: [NullString] and [NullInt64] are plain structs with a
    [Valid] flag. *)
Record NullString : Type := mkNullString { NS_String : string; NS_Valid : bool }.
Record NullInt64 : Type := mkNullInt64 { NI_Int64 : Z; NI_Valid : bool }.

(** ** The structs of the package *)

Record City : Type := mkCity {
  City_ID : Z;
  City_Name : NullString;
  City_CountryCode : NullString;
  City_District : NullString;
  City_Population : NullInt64
}.

Record CityInput : Type := mkCityInput {
  CityInput_ID : Z;
  CityInput_Name : string;
  CityInput_CountryCode : string;
  CityInput_District : string;
  CityInput_Population : Z
}.

Record LoginRequestBody : Type := mkLoginRequestBody {
  Req_Username : string;
  Req_Password : string
}.

Record User : Type := mkUser {
  User_Username : string;
  User_HashedPass : string
}.

Record Me : Type := mkMe { Me_Username : string }.

(** ** JSON, as [encoding/json] writes it *)

Unset Elimination Schemes.
Inductive JSON : Type :=
  | JNull
  | JBool (b : bool)
  | JNumber (n : Z)
  | JString (s : string)
  | JArray (items : list JSON)
  | JObject (members : list (string * JSON)).
Set Elimination Schemes.

(** A struct field tagged [omitempty] is left out when its value is empty:
    false, 0, a nil pointer or interface, an empty array, slice, map or
    string.  A struct value is never empty. *)
Definition omitempty_int (key : string) (n : Z) : list (string * JSON) :=
  if decide (n = 0) then [] else [(key, JNumber n)].

Definition omitempty_string (key : string) (s : string) : list (string * JSON) :=
  if decide (s = "") then [] else [(key, JString s)].

Definition omitempty_struct (key : string) (j : JSON) : list (string * JSON) :=
  [(key, j)].

(** [sql.NullString] and [sql.NullInt64] have no [MarshalJSON] method: they
    are encoded field by field, like any struct. *)
Definition marshal_NullString (n : NullString) : JSON :=
  JObject [("String", JString (NS_String n)); ("Valid", JBool (NS_Valid n))].

Definition marshal_NullInt64 (n : NullInt64) : JSON :=
  JObject [("Int64", JNumber (NI_Int64 n)); ("Valid", JBool (NI_Valid n))].

Definition marshal_City (c : City) : JSON :=
  JObject (omitempty_int "id" (City_ID c)
           ++ omitempty_struct "name" (marshal_NullString (City_Name c))
           ++ omitempty_struct "countryCode" (marshal_NullString (City_CountryCode c))
           ++ omitempty_struct "district" (marshal_NullString (City_District c))
           ++ omitempty_struct "population" (marshal_NullInt64 (City_Population c))).

Definition marshal_CityInput (c : CityInput) : JSON :=
  JObject (omitempty_int "id" (CityInput_ID c)
           ++ omitempty_string "name" (CityInput_Name c)
           ++ omitempty_string "countryCode" (CityInput_CountryCode c)
           ++ omitempty_string "district" (CityInput_District c)
           ++ omitempty_int "population" (CityInput_Population c)).

Definition marshal_Me (m : Me) : JSON :=
  JObject (omitempty_string "username" (Me_Username m)).

(** A [[]string] built by [append] from a nil slice: it is still nil when
    nothing was appended, and a nil slice is encoded as [null]. *)
Definition marshal_strings (l : list string) : JSON :=
  match l with
  | [] => JNull
  | _ => JArray (JString <$> l)
  end.

(** ** Responses *)

Definition StatusOK : Z := 200.
Definition StatusCreated : Z := 201.
Definition StatusBadRequest : Z := 400.
Definition StatusUnauthorized : Z := 401.
Definition StatusNotFound : Z := 404.
Definition StatusConflict : Z := 409.
Definition StatusInternalServerError : Z := 500.

Inductive Body : Type :=
  | BodyEmpty
  | BodyText (s : string)
  | BodyJSON (j : JSON).

Record Response : Type := mkResponse { Status : Z; Payload : Body }.

(** What a handler call ends in: it wrote a response and returned nil, it
    returned an [*echo.HTTPError] for echo's error handler to answer, or it
    panicked. *)
Inductive Outcome : Type :=
  | Written (r : Response)
  | HTTPError (code : Z) (message : string)
  | Panic.

Definition c_NoContent (code : Z) : Outcome := Written (mkResponse code BodyEmpty).
Definition c_String (code : Z) (s : string) : Outcome := Written (mkResponse code (BodyText s)).
Definition c_JSON (code : Z) (j : JSON) : Outcome := Written (mkResponse code (BodyJSON j)).
Definition NewHTTPError (code : Z) (message : string) : Outcome := HTTPError code message.

(** The status code the client sees. *)
Definition status_of (o : Outcome) : option Z :=
  match o with
  | Written r => Some (Status r)
  | HTTPError code _ => Some code
  | Panic => None
  end.

(** ** Request context and session *)

(** [echo.Context]: the path parameters and the per-request store written
    by [c.Set] and read by [c.Get]. *)
Record Context : Type := mkContext {
  Params : gmap string string;
  Store : gmap string GoValue
}.

(** [c.Param]: the empty string for a name that is not bound. *)
Definition c_Param (c : Context) (name : string) : string :=
  default "" (Params c !! name).

Definition c_Set (c : Context) (key : string) (v : GoValue) : Context :=
  mkContext (Params c) (<[key := v]> (Store c)).

(** [c.Get]: nil for a key that is not set. *)
Definition c_Get (c : Context) (key : string) : GoValue :=
  default VNil (Store c !! key).

(** A gorilla session: its [Values] map. *)
Record Session : Type := mkSession { Values : gmap string GoValue }.

(** [sess.Values[key]]: indexing a map of interfaces gives nil for a
    missing key. *)
Definition Values_get (s : Session) (key : string) : GoValue :=
  default VNil (Values s !! key).

(** [sess.Values[key] = v] *)
Definition Values_set (s : Session) (key : string) (v : GoValue) : Session :=
  mkSession (<[key := v]> (Values s)).

Global Arguments Values_get : simpl never.
Global Arguments Values_set : simpl never.
Global Arguments c_Param : simpl never.
Global Arguments c_Set : simpl never.
Global Arguments c_Get : simpl never.

(** [sql.Result] *)
Record SqlResult : Type := mkSqlResult { insertId : Z; rowsAffected : Z }.

(** ** Calls to the outside *)

(** The queries passed to [h.db.Get], one constructor per SQL text of the
    source, with its bind parameters; the index is the Go type of the
    destination. *)
Inductive Query : Type → Type :=
  | Q_city_by_name (cityName : string) : Query City
  | Q_count_users (username : string) : Query Z
  | Q_user_by_name (username : string) : Query User
  | Q_count_countries : Query Z
  | Q_nth_country (i : Z) : Query string
  | Q_country_code (countryName : string) : Query string
  | Q_count_cities (countryCode : string) : Query Z
  | Q_nth_city (countryCode : string) (i : Z) : Query string
  | Q_city_by_code_and_name (countryCode cityName : string) : Query City.

Definition sql_text {T} (q : Query T) : string :=
  match q with
  | Q_city_by_name _ => "SELECT * FROM city WHERE Name=?"
  | Q_count_users _ => "SELECT COUNT(*) FROM users WHERE Username=?"
  | Q_user_by_name _ => "SELECT * FROM users WHERE username=?"
  | Q_count_countries => "select count(*) from country"
  | Q_nth_country _ => "select Name from country order by Name asc limit 1 offset ?"
  | Q_country_code _ => "select Code from country where Name = ?"
  | Q_count_cities _ => "select count(*) from city where CountryCode = ?"
  | Q_nth_city _ _ =>
      "select Name from city where CountryCode = ? order by Name asc limit 1 offset ?"
  | Q_city_by_code_and_name _ _ => "select * from city where CountryCode = ? AND Name = ?"
  end.

(** The statements passed to [h.db.Exec]. *)
Inductive Stmt : Type :=
  | S_insert_city (name countryCode district : string) (population : Z)
  | S_insert_user (username hashedPass : string).

Definition stmt_text (s : Stmt) : string :=
  match s with
  | S_insert_city _ _ _ _ =>
      "INSERT INTO city (Name, CountryCode, District, Population) VALUES (?, ?, ?, ?)"
  | S_insert_user _ _ => "INSERT INTO users (Username, HashedPass) VALUES (?, ?)"
  end.

Definition bcrypt_DefaultCost : Z := 10.

(** Every call a handler makes to a collaborator, indexed by the type of
    what the call returns. *)
Inductive Ev : Type → Type :=
  | Bind_CityInput : Ev (result CityInput)
  | Bind_LoginRequestBody : Ev (result LoginRequestBody)
  | db_Get {T} (q : Query T) : Ev (result T)
  | db_Exec (s : Stmt) : Ev (result SqlResult)
  | LastInsertId (r : SqlResult) : Ev (result Z)
  | bcrypt_GenerateFromPassword (password : string) (cost : Z) : Ev (result string)
  | bcrypt_CompareHashAndPassword (hashedPassword password : string) : Ev (option error)
  | session_Get (name : string) : Ev (result Session)
  | session_Save (s : Session) : Ev (option error).

(** ** Programs *)

Inductive Prog (R : Type) : Type :=
  | Ret (r : R)
  | Vis {A : Type} (e : Ev A) (k : A → Prog R).
Global Arguments Ret {R} r.
Global Arguments Vis {R A} e k.

Notation "'call!' x ':=' e 'in' k" := (Vis e (λ x, k))
  (at level 10, x name, e at level 100, k at level 200,
   format "'[v' 'call!'  x  ':='  e  'in' '/' k ']'").

(** One entry of a trace: a call and what it returned. *)
Inductive Entry : Type :=
  | entry {A : Type} (e : Ev A) (a : A).

(** An environment answers every call, and may change while doing so. *)
Record Env (W : Type) : Type := mkEnv {
  handle : ∀ A, Ev A → W → A * W
}.
Global Arguments handle {W} _ {A} _ _.
Global Arguments mkEnv {W} _.

Fixpoint run {W R} (env : Env W) (p : Prog R) (w : W) : R * W * list Entry :=
  match p with
  | Ret r => (r, w, [])
  | Vis e k =>
      let '(a, w1) := handle env e w in
      let '(r, w2, tr) := run env (k a) w1 in
      (r, w2, entry e a :: tr)
  end.

Definition outcome_of {W R} (env : Env W) (p : Prog R) (w : W) : R := (run env p w).1.1.
Definition world_of {W R} (env : Env W) (p : Prog R) (w : W) : W := (run env p w).1.2.
Definition trace_of {W R} (env : Env W) (p : Prog R) (w : W) : list Entry := (run env p w).2.

Definition HandlerFunc : Type := Context → Prog Outcome.

(** ** The handlers *)

Definition is_ErrNoRows (err : error) : bool :=
  match err with ErrNoRows => true | _ => false end.

Definition is_ErrMismatched (err : error) : bool :=
  match err with ErrMismatchedHashAndPassword => true | _ => false end.

(** handler.go, lines 39-53 *)
Definition GetCityInfoHandler : HandlerFunc := λ c,
  let cityName := c_Param c "cityName" in
  call! r := db_Get (Q_city_by_name cityName) in
  match r with
  | Err err =>
      if is_ErrNoRows err then Ret (c_NoContent StatusNotFound)
      else Ret (c_NoContent StatusInternalServerError)
  | Ok city => Ret (c_JSON StatusOK (marshal_City city))
  end.

Definition set_CityInput_ID (city : CityInput) (id : Z) : CityInput :=
  mkCityInput id (CityInput_Name city) (CityInput_CountryCode city)
    (CityInput_District city) (CityInput_Population city).

(** handler.go, lines 55-78 *)
Definition PostCityHandler : HandlerFunc := λ c,
  call! b := Bind_CityInput in
  match b with
  | Err _ => Ret (NewHTTPError StatusBadRequest "bad request body")
  | Ok city =>
      call! r := db_Exec (S_insert_city (CityInput_Name city) (CityInput_CountryCode city)
                            (CityInput_District city) (CityInput_Population city)) in
      match r with
      | Err _ => Ret (c_NoContent StatusInternalServerError)
      | Ok res =>
          call! i := LastInsertId res in
          match i with
          | Err _ => Ret (c_NoContent StatusInternalServerError)
          | Ok id => Ret (c_JSON StatusCreated (marshal_CityInput (set_CityInput_ID city id)))
          end
      end
  end.

(** handler.go, lines 85-127 *)
Definition SignUpHandler : HandlerFunc := λ c,
  call! b := Bind_LoginRequestBody in
  match b with
  | Err _ => Ret (NewHTTPError StatusBadRequest "bad request body")
  | Ok req =>
      if bool_decide (Req_Password req = "") || bool_decide (Req_Username req = "")
      then Ret (c_String StatusBadRequest "Username or Password is empty")
      else
        call! n := db_Get (Q_count_users (Req_Username req)) in
        match n with
        | Err _ => Ret (c_NoContent StatusInternalServerError)
        | Ok count =>
            if bool_decide (count > 0)
            then Ret (c_String StatusConflict "Username is already used")
            else
              call! h := bcrypt_GenerateFromPassword (Req_Password req) bcrypt_DefaultCost in
              match h with
              | Err _ => Ret (c_NoContent StatusInternalServerError)
              | Ok hashedPass =>
                  call! x := db_Exec (S_insert_user (Req_Username req) hashedPass) in
                  match x with
                  | Err _ => Ret (c_NoContent StatusInternalServerError)
                  | Ok _ => Ret (c_NoContent StatusCreated)
                  end
              end
        end
  end.

(** handler.go, lines 134-177.  The result of [sess.Save] is dropped. *)
Definition LoginHandler : HandlerFunc := λ c,
  call! b := Bind_LoginRequestBody in
  match b with
  | Err _ => Ret (c_String StatusBadRequest "bad request body")
  | Ok req =>
      if bool_decide (Req_Password req = "") || bool_decide (Req_Username req = "")
      then Ret (c_String StatusBadRequest "Username or Password is empty")
      else
        call! u := db_Get (Q_user_by_name (Req_Username req)) in
        match u with
        | Err err =>
            if is_ErrNoRows err then Ret (c_NoContent StatusUnauthorized)
            else Ret (c_NoContent StatusInternalServerError)
        | Ok user =>
            call! m := bcrypt_CompareHashAndPassword (User_HashedPass user) (Req_Password req) in
            match m with
            | Some err =>
                if is_ErrMismatched err then Ret (c_NoContent StatusUnauthorized)
                else Ret (c_NoContent StatusInternalServerError)
            | None =>
                call! s := session_Get "sessions" in
                match s with
                | Err _ =>
                    Ret (c_String StatusInternalServerError "something wrong in getting session")
                | Ok sess =>
                    let sess := Values_set sess "userName" (VString (Req_Username req)) in
                    call! _ := session_Save sess in
                    Ret (c_NoContent StatusOK)
                end
            end
        end
  end.

(** handler.go, lines 179-192.  [v.(string)] panics unless the dynamic type
    of [v] is string. *)
Definition UserAuthMiddleware (next : HandlerFunc) : HandlerFunc := λ c,
  call! s := session_Get "sessions" in
  match s with
  | Err _ => Ret (c_String StatusInternalServerError "something wrong in getting session")
  | Ok sess =>
      match Values_get sess "userName" with
      | VNil => Ret (c_String StatusUnauthorized "please login")
      | VString userName => next (c_Set c "userName" (VString userName))
      | _ => Ret Panic
      end
  end.

(** handler.go, lines 198-202 *)
Definition GetMeHandler : HandlerFunc := λ c,
  match c_Get c "userName" with
  | VString userName => Ret (c_JSON StatusOK (marshal_Me (mkMe userName)))
  | _ => Ret Panic
  end.

(** The two enumeration loops of [GetWorldHandler] (lines 228-238 and
    258-268) differ in the query only: [for i := 0; i < n; i++], one
    [db.Get] per index, leaving at the first error, appending otherwise.
    [todo] counts the iterations left and [after] is the code that follows
    the loop. *)
Fixpoint fetch_by_offset (query : Z → Query string) (todo : nat) (i : Z)
    (names : list string) (after : list string → Prog Outcome) : Prog Outcome :=
  match todo with
  | O => after names
  | S todo' =>
      call! r := db_Get (query i) in
      match r with
      | Err err =>
          if is_ErrNoRows err then Ret (c_NoContent StatusNotFound)
          else Ret (c_NoContent StatusInternalServerError)
      | Ok name => fetch_by_offset query todo' (i + 1) (names ++ [name]) after
      end
  end.

(** handler.go, lines 204-292 *)
Definition GetWorldHandler : HandlerFunc := λ c,
  let countryName := c_Param c "countryName" in
  let cityName := c_Param c "cityName" in
  if bool_decide (countryName = "allCountries") then
    call! n := db_Get Q_count_countries in
    match n with
    | Err err =>
        if is_ErrNoRows err then Ret (c_NoContent StatusNotFound)
        else Ret (c_NoContent StatusInternalServerError)
    | Ok howManyCountries =>
        fetch_by_offset Q_nth_country (Z.to_nat howManyCountries) 0 []
          (λ countries, Ret (c_JSON StatusOK (marshal_strings countries)))
    end
  else if bool_decide (cityName = "allCities") then
    call! k := db_Get (Q_country_code countryName) in
    match k with
    | Err err =>
        if is_ErrNoRows err then Ret (c_NoContent StatusNotFound)
        else Ret (c_NoContent StatusInternalServerError)
    | Ok countryCode =>
        call! n := db_Get (Q_count_cities countryCode) in
        match n with
        | Err err =>
            if is_ErrNoRows err then Ret (c_NoContent StatusNotFound)
            else Ret (c_NoContent StatusInternalServerError)
        | Ok howManyCities =>
            fetch_by_offset (Q_nth_city countryCode) (Z.to_nat howManyCities) 0 []
              (λ cities, Ret (c_JSON StatusOK (marshal_strings cities)))
        end
    end
  else
    call! k := db_Get (Q_country_code countryName) in
    match k with
    | Err err =>
        if is_ErrNoRows err then Ret (c_NoContent StatusNotFound)
        else Ret (c_NoContent StatusInternalServerError)
    | Ok countryCode =>
        call! r := db_Get (Q_city_by_code_and_name countryCode cityName) in
        match r with
        | Err err =>
            if is_ErrNoRows err then Ret (c_NoContent StatusNotFound)
            else Ret (c_NoContent StatusInternalServerError)
        | Ok cityInfo => Ret (c_JSON StatusOK (marshal_City cityInfo))
        end
    end.

(** ** A model of the store *)

(** Modelled from the spec: the [country] table has no struct in the
    package; its two columns that the queries name are [Code] and [Name]. *)
Record Country : Type := mkCountry { Country_Code : string; Country_Name : string }.

(** A row of [city]: every column that [City] scans into a [sql.Null...]
    may hold NULL. *)
Record CityRow : Type := mkCityRow {
  Row_ID : Z;
  Row_Name : option string;
  Row_CountryCode : option string;
  Row_District : option string;
  Row_Population : option Z
}.

Record Database : Type := mkDatabase {
  country : list Country;
  city : list CityRow;
  users : list User
}.

Definition scan_NullString (v : option string) : NullString :=
  match v with
  | Some s => mkNullString s true
  | None => mkNullString "" false
  end.

Definition scan_NullInt64 (v : option Z) : NullInt64 :=
  match v with
  | Some n => mkNullInt64 n true
  | None => mkNullInt64 0 false
  end.

Definition scan_City (r : CityRow) : City :=
  mkCity (Row_ID r) (scan_NullString (Row_Name r)) (scan_NullString (Row_CountryCode r))
    (scan_NullString (Row_District r)) (scan_NullInt64 (Row_Population r)).

(** Scanning a NULL into a Go [string] is an error. *)
Definition scan_string (v : option string) : result string :=
  match v with
  | Some s => Ok s
  | None => Err (ErrOther "converting NULL to string is unsupported")
  end.

(** [db.Get] takes the first row of the result set and reports
    [sql.ErrNoRows] when there is none. *)
Definition first_row {A T} (scan : A → result T) (rows : list A) : result T :=
  match rows with
  | [] => Err ErrNoRows
  | r :: _ => scan r
  end.

(** [order by Name asc]: NULLs first, then the names in ascending order of
    their bytes. *)
Definition order_by_name (names : list (option string)) : list (option string) :=
  filter (λ n, n = None) names ++ (Some <$> merge_sort String.le (omap id names)).

(** [limit 1 offset i] *)
Definition limit_1_offset {A} (i : Z) (rows : list A) : list A :=
  if decide (i < 0) then [] else
  match rows !! Z.to_nat i with
  | Some r => [r]
  | None => []
  end.

Definition cities_of (db : Database) (countryCode : string) : list CityRow :=
  filter (λ r, Row_CountryCode r = Some countryCode) (city db).

Definition sql_Get (db : Database) {T} (q : Query T) : result T :=
  match q in Query T return result T with
  | Q_city_by_name cityName =>
      first_row (λ r, Ok (scan_City r)) (filter (λ r, Row_Name r = Some cityName) (city db))
  | Q_count_users username =>
      Ok (Z.of_nat (length (filter (λ u, User_Username u = username) (users db))))
  | Q_user_by_name username =>
      first_row Ok (filter (λ u, User_Username u = username) (users db))
  | Q_count_countries => Ok (Z.of_nat (length (country db)))
  | Q_nth_country i =>
      first_row scan_string
        (limit_1_offset i (order_by_name (Some ∘ Country_Name <$> country db)))
  | Q_country_code countryName =>
      first_row (λ r, Ok (Country_Code r))
        (filter (λ r, Country_Name r = countryName) (country db))
  | Q_count_cities countryCode => Ok (Z.of_nat (length (cities_of db countryCode)))
  | Q_nth_city countryCode i =>
      first_row scan_string
        (limit_1_offset i (order_by_name (Row_Name <$> cities_of db countryCode)))
  | Q_city_by_code_and_name countryCode cityName =>
      first_row (λ r, Ok (scan_City r))
        (filter (λ r, Row_Name r = Some cityName) (cities_of db countryCode))
  end.

(** The next value of the auto-increment key of [city]. *)
Definition next_id (rows : list CityRow) : Z :=
  1 + foldr Z.max 0 (Row_ID <$> rows).

(** [CountryCode] of [city] is a foreign key to [Code] of [country]. *)
Definition has_country (db : Database) (countryCode : string) : Prop :=
  countryCode ∈ Country_Code <$> country db.

Global Instance has_country_dec (db : Database) (countryCode : string) :
  Decision (has_country db countryCode).
Proof. unfold has_country. apply _. Defined.

Definition foreign_key_fails : error :=
  ErrOther "Error 1452: Cannot add or update a child row: a foreign key constraint fails".

(** [INSERT]: the store refuses a city whose country code no country has,
    and is left as it was; [users] has no constraint. *)
Definition sql_Exec (db : Database) (s : Stmt) : result SqlResult * Database :=
  match s with
  | S_insert_city name countryCode district population =>
      if bool_decide (has_country db countryCode) then
        let id := next_id (city db) in
        (Ok (mkSqlResult id 1),
         mkDatabase (country db)
           (city db ++ [mkCityRow id (Some name) (Some countryCode) (Some district)
                          (Some population)])
           (users db))
      else (Err foreign_key_fails, db)
  | S_insert_user username hashedPass =>
      (Ok (mkSqlResult 0 1),
       mkDatabase (country db) (city db) (users db ++ [mkUser username hashedPass]))
  end.

(** An environment whose database calls are answered by the model, and
    whose other calls go to [o]. *)
Definition with_database {X} (o : Env X) : Env (Database * X) :=
  mkEnv (λ A (e : Ev A),
    match e in Ev A return Database * X → A * (Database * X) with
    | db_Get q => λ w, (sql_Get w.1 q, w)
    | db_Exec s => λ w, let '(r, db) := sql_Exec w.1 s in (r, (db, w.2))
    | LastInsertId r => λ w, (Ok (insertId r), w)
    | e => λ w, let '(a, x) := handle o e w.2 in (a, (w.1, x))
    end).

(** ** A client and its session, for running the handlers *)

(** What one client sends and the state of its session; a cause of failure
    can be planted in each collaborator. *)
Record Sim : Type := mkSim {
  sim_city_body : result CityInput;
  sim_login_body : result LoginRequestBody;
  sim_session : Session;
  sim_hash_error : option error;
  sim_session_error : option error;
  sim_save_error : option error
}.

(** A stand-in for bcrypt, good enough to run the handlers: it only has to
    tell the right password from a wrong one. *)
Definition sim_hash (password : string) : string := "$2a$10$" +:+ password.

Definition sim_compare (hashedPassword password : string) : option error :=
  if decide (hashedPassword = sim_hash password) then None
  else Some ErrMismatchedHashAndPassword.

Definition set_sim_session (w : Sim) (s : Session) : Sim :=
  mkSim (sim_city_body w) (sim_login_body w) s (sim_hash_error w)
    (sim_session_error w) (sim_save_error w).

(** On its own this environment has no database behind it: every database
    call fails. *)
Definition sim_env : Env Sim :=
  mkEnv (λ A (e : Ev A),
    match e in Ev A return Sim → A * Sim with
    | Bind_CityInput => λ w, (sim_city_body w, w)
    | Bind_LoginRequestBody => λ w, (sim_login_body w, w)
    | db_Get _ => λ w, (Err (ErrOther "dial tcp: connection refused"), w)
    | db_Exec _ => λ w, (Err (ErrOther "dial tcp: connection refused"), w)
    | LastInsertId r => λ w, (Ok (insertId r), w)
    | bcrypt_GenerateFromPassword password _ => λ w,
        (match sim_hash_error w with Some err => Err err | None => Ok (sim_hash password) end, w)
    | bcrypt_CompareHashAndPassword h password => λ w, (sim_compare h password, w)
    | session_Get _ => λ w,
        (match sim_session_error w with Some err => Err err | None => Ok (sim_session w) end, w)
    | session_Save s => λ w,
        match sim_save_error w with
        | Some err => (Some err, w)
        | None => (None, set_sim_session w s)
        end
    end).

Definition no_session : Session := mkSession ∅.

Definition client (city_body : result CityInput) (login_body : result LoginRequestBody) : Sim :=
  mkSim city_body login_body no_session None None None.

Definition no_body {T} : result T := Err (ErrOther "EOF").

Definition path (countryName cityName : string) : Context :=
  mkContext (<["countryName" := countryName]> (<["cityName" := cityName]> ∅)) ∅.

(** ** Reading a trace *)

(** The first entry of a trace that [pick] recognises. *)
Definition first_of {X} (pick : Entry → option X) (tr : list Entry) : option X :=
  head (omap pick tr).

Definition pick_login_body (en : Entry) : option (result LoginRequestBody) :=
  match en with
  | entry e a =>
      match e in Ev A return A → option (result LoginRequestBody) with
      | Bind_LoginRequestBody => Some
      | _ => λ _, None
      end a
  end.

Definition pick_city_body (en : Entry) : option (result CityInput) :=
  match en with
  | entry e a =>
      match e in Ev A return A → option (result CityInput) with
      | Bind_CityInput => Some
      | _ => λ _, None
      end a
  end.

(** The user-count query: whose rows were counted, and the answer. *)
Definition pick_user_count (en : Entry) : option (string * result Z) :=
  match en with
  | entry e a =>
      match e in Ev A return A → option (string * result Z) with
      | db_Get q =>
          match q in Query T return result T → option (string * result Z) with
          | Q_count_users username => λ r, Some (username, r)
          | _ => λ _, None
          end
      | _ => λ _, None
      end a
  end.

Definition pick_user_row (en : Entry) : option (string * result User) :=
  match en with
  | entry e a =>
      match e in Ev A return A → option (string * result User) with
      | db_Get q =>
          match q in Query T return result T → option (string * result User) with
          | Q_user_by_name username => λ r, Some (username, r)
          | _ => λ _, None
          end
      | _ => λ _, None
      end a
  end.

Definition pick_hash (en : Entry) : option (string * result string) :=
  match en with
  | entry e a =>
      match e in Ev A return A → option (string * result string) with
      | bcrypt_GenerateFromPassword password _ => λ r, Some (password, r)
      | _ => λ _, None
      end a
  end.

Definition pick_compare (en : Entry) : option (string * string * option error) :=
  match en with
  | entry e a =>
      match e in Ev A return A → option (string * string * option error) with
      | bcrypt_CompareHashAndPassword h password => λ r, Some (h, password, r)
      | _ => λ _, None
      end a
  end.

Definition pick_exec (en : Entry) : option (Stmt * result SqlResult) :=
  match en with
  | entry e a =>
      match e in Ev A return A → option (Stmt * result SqlResult) with
      | db_Exec s => λ r, Some (s, r)
      | _ => λ _, None
      end a
  end.

Definition pick_insert_id (en : Entry) : option (SqlResult * result Z) :=
  match en with
  | entry e a =>
      match e in Ev A return A → option (SqlResult * result Z) with
      | LastInsertId res => λ r, Some (res, r)
      | _ => λ _, None
      end a
  end.

Definition pick_session (en : Entry) : option (result Session) :=
  match en with
  | entry e a =>
      match e in Ev A return A → option (result Session) with
      | session_Get _ => Some
      | _ => λ _, None
      end a
  end.

Definition pick_save (en : Entry) : option (Session * option error) :=
  match en with
  | entry e a =>
      match e in Ev A return A → option (Session * option error) with
      | session_Save s => λ r, Some (s, r)
      | _ => λ _, None
      end a
  end.

Definition is_picked {X} (pick : Entry → option X) (en : Entry) : bool :=
  bool_decide (is_Some (pick en)).

(** No entry that [later] recognises comes before the first one that
    [earlier] recognises. *)
Fixpoint preceded_by (earlier later : Entry → bool) (tr : list Entry) : bool :=
  match tr with
  | [] => true
  | en :: tr' => earlier en || (negb (later en) && preceded_by earlier later tr')
  end.

Definition empty_field (req : LoginRequestBody) : bool :=
  bool_decide (Req_Password req = "") || bool_decide (Req_Username req = "").

(** ** Contracts of the account endpoints *)

Definition is_user_count (en : Entry) : bool := is_picked pick_user_count en.

Definition is_hash_or_exec (en : Entry) : bool :=
  is_picked pick_hash en || is_picked pick_exec en.

(** Was the user-count query answered with a positive number? *)
Definition count_positive (tr : list Entry) : bool :=
  match first_of pick_user_count tr with
  | Some (_, Ok count) => bool_decide (count > 0)
  | _ => false
  end.

Definition count_failed (tr : list Entry) : bool :=
  match first_of pick_user_count tr with
  | Some (_, Err _) => true
  | _ => false
  end.

Definition hash_failed (tr : list Entry) : bool :=
  match first_of pick_hash tr with
  | Some (_, Err _) => true
  | _ => false
  end.

Definition exec_failed (tr : list Entry) : bool :=
  match first_of pick_exec tr with
  | Some (_, Err _) => true
  | _ => false
  end.

(** The cascade of sign-up as a reading of the trace [tr] and the outcome
    [o] of one run, with the answer to a failing user-count query left as a
    parameter: [on_count_failure = None] gives the cascade without a case
    for that failure, which then falls through to the cases below it. *)
Definition signup_cascade (on_count_failure : option Outcome)
    (tr : list Entry) (o : Outcome) : Prop :=
  match first_of pick_login_body tr with
  | None => False
  | Some (Err _) => status_of o = Some StatusBadRequest
  | Some (Ok req) =>
      if empty_field req then o = c_String StatusBadRequest "Username or Password is empty"
      else if count_positive tr then o = c_String StatusConflict "Username is already used"
      else
        match on_count_failure with
        | Some answer =>
            if count_failed tr then o = answer
            else if hash_failed tr || exec_failed tr
            then o = c_NoContent StatusInternalServerError
            else o = c_NoContent StatusCreated
        | None =>
            if hash_failed tr || exec_failed tr
            then o = c_NoContent StatusInternalServerError
            else o = c_NoContent StatusCreated
        end
  end.

(** The duplicate check comes before hashing and before any insert, and it
    counts the rows of the submitted username. *)
Definition check_comes_first (tr : list Entry) : Prop :=
  preceded_by is_user_count is_hash_or_exec tr = true ∧
  (count_positive tr = true → Forall (λ en, is_hash_or_exec en = false) tr) ∧
  match first_of pick_login_body tr, first_of pick_user_count tr with
  | Some (Ok req), Some (username, _) => username = Req_Username req
  | _, _ => True
  end.

(** The runs of sign-up: the calls that were made, in order, with what each
    returned, and the answer.  Nothing is asked of the store before both
    fields are known to be filled, the count is asked for the submitted
    username, the hash is taken of the submitted password, and the row that
    is inserted holds that username and that hash. *)
Inductive signup_run : list Entry → Outcome → Prop :=
  | signup_bad_body err :
      signup_run
        [entry Bind_LoginRequestBody (Err err)]
        (NewHTTPError StatusBadRequest "bad request body")
  | signup_empty_field req :
      empty_field req = true →
      signup_run
        [entry Bind_LoginRequestBody (Ok req)]
        (c_String StatusBadRequest "Username or Password is empty")
  | signup_count_failed req err :
      empty_field req = false →
      signup_run
        [entry Bind_LoginRequestBody (Ok req);
         entry (db_Get (Q_count_users (Req_Username req))) (Err err)]
        (c_NoContent StatusInternalServerError)
  | signup_taken req count :
      empty_field req = false →
      (0 < count)%Z →
      signup_run
        [entry Bind_LoginRequestBody (Ok req);
         entry (db_Get (Q_count_users (Req_Username req))) (Ok count)]
        (c_String StatusConflict "Username is already used")
  | signup_hash_failed req count err :
      empty_field req = false →
      (count ≤ 0)%Z →
      signup_run
        [entry Bind_LoginRequestBody (Ok req);
         entry (db_Get (Q_count_users (Req_Username req))) (Ok count);
         entry (bcrypt_GenerateFromPassword (Req_Password req) bcrypt_DefaultCost) (Err err)]
        (c_NoContent StatusInternalServerError)
  | signup_insert_failed req count hashedPass err :
      empty_field req = false →
      (count ≤ 0)%Z →
      signup_run
        [entry Bind_LoginRequestBody (Ok req);
         entry (db_Get (Q_count_users (Req_Username req))) (Ok count);
         entry (bcrypt_GenerateFromPassword (Req_Password req) bcrypt_DefaultCost)
           (Ok hashedPass);
         entry (db_Exec (S_insert_user (Req_Username req) hashedPass)) (Err err)]
        (c_NoContent StatusInternalServerError)
  | signup_created req count hashedPass res :
      empty_field req = false →
      (count ≤ 0)%Z →
      signup_run
        [entry Bind_LoginRequestBody (Ok req);
         entry (db_Get (Q_count_users (Req_Username req))) (Ok count);
         entry (bcrypt_GenerateFromPassword (Req_Password req) bcrypt_DefaultCost)
           (Ok hashedPass);
         entry (db_Exec (S_insert_user (Req_Username req) hashedPass)) (Ok res)]
        (c_NoContent StatusCreated).

Definition alice : LoginRequestBody := mkLoginRequestBody "alice" "secret".

(** Log-in: the request carries both fields, the user row is missing, the
    password does not match. *)
Definition has_credentials (tr : list Entry) : bool :=
  match first_of pick_login_body tr with
  | Some (Ok req) => negb (empty_field req)
  | _ => false
  end.

Definition unknown_user (tr : list Entry) : bool :=
  match first_of pick_user_row tr with
  | Some (_, Err err) => is_ErrNoRows err
  | _ => false
  end.

Definition wrong_password (tr : list Entry) : bool :=
  match first_of pick_user_row tr, first_of pick_compare tr with
  | Some (_, Ok _), Some (_, _, Some err) => is_ErrMismatched err
  | _, _ => false
  end.

(** Log-in got as far as the session: the password matched and
    [session.Get] gave a session. *)
Definition reaches_session_step (tr : list Entry) : bool :=
  match first_of pick_compare tr, first_of pick_session tr with
  | Some (_, _, None), Some (Ok _) => true
  | _, _ => false
  end.

Definition save_failed (tr : list Entry) : bool :=
  match first_of pick_save tr with
  | Some (_, Some _) => true
  | _ => false
  end.

(** The sessions this package can produce: a new one, or one in which
    log-in stored the username it had validated. *)
Inductive core_session : Session → Prop :=
  | core_new : core_session (mkSession ∅)
  | core_login sess req :
      core_session sess →
      empty_field req = false →
      core_session (Values_set sess "userName" (VString (Req_Username req))).

(** A database in which alice has signed up with the password "secret". *)
Definition alice_db : Database :=
  mkDatabase [] [] [mkUser "alice" (sim_hash "secret")].

(** ** Contract of city creation *)

(** What a client reads after a city was created: the key the store gave
    under "id" and the four fields that were sent; a number that is 0 and a
    string that is empty are left out. *)
Definition created_json (id : Z) (name countryCode district : string) (population : Z)
    : JSON :=
  JObject
    ((if decide (id = 0) then [] else [("id", JNumber id)]) ++
     (if decide (name = "") then [] else [("name", JString name)]) ++
     (if decide (countryCode = "") then [] else [("countryCode", JString countryCode)]) ++
     (if decide (district = "") then [] else [("district", JString district)]) ++
     (if decide (population = 0) then [] else [("population", JNumber population)]))%list.

(** The runs of city creation: the calls that were made, in order, with
    what each returned, and the answer. *)
Inductive post_city_run : list Entry → Outcome → Prop :=
  | post_city_bad_body err :
      post_city_run
        [entry Bind_CityInput (Err err)]
        (NewHTTPError StatusBadRequest "bad request body")
  | post_city_insert_failed city err :
      post_city_run
        [entry Bind_CityInput (Ok city);
         entry (db_Exec (S_insert_city (CityInput_Name city) (CityInput_CountryCode city)
                           (CityInput_District city) (CityInput_Population city)))
           (Err err)]
        (c_NoContent StatusInternalServerError)
  | post_city_id_failed city res err :
      post_city_run
        [entry Bind_CityInput (Ok city);
         entry (db_Exec (S_insert_city (CityInput_Name city) (CityInput_CountryCode city)
                           (CityInput_District city) (CityInput_Population city)))
           (Ok res);
         entry (LastInsertId res) (Err err)]
        (c_NoContent StatusInternalServerError)
  | post_city_created city res id :
      post_city_run
        [entry Bind_CityInput (Ok city);
         entry (db_Exec (S_insert_city (CityInput_Name city) (CityInput_CountryCode city)
                           (CityInput_District city) (CityInput_Population city)))
           (Ok res);
         entry (LastInsertId res) (Ok id)]
        (c_JSON StatusCreated
           (created_json id (CityInput_Name city) (CityInput_CountryCode city)
              (CityInput_District city) (CityInput_Population city))).

Definition row_of_input (id : Z) (city : CityInput) : CityRow :=
  mkCityRow id (Some (CityInput_Name city)) (Some (CityInput_CountryCode city))
    (Some (CityInput_District city)) (Some (CityInput_Population city)).

(** ** JSON objects *)

Fixpoint assoc (key : string) (members : list (string * JSON)) : option JSON :=
  match members with
  | [] => None
  | (k, v) :: rest => if decide (k = key) then Some v else assoc key rest
  end.

Definition json_member (key : string) (j : JSON) : option JSON :=
  match j with
  | JObject members => assoc key members
  | _ => None
  end.

(** What a client reads for a column that may hold NULL: an object with
    the value, or the zero value, and whether there is a value. *)
Definition null_string_json (v : option string) : JSON :=
  match v with
  | Some s => JObject [("String", JString s); ("Valid", JBool true)]
  | None => JObject [("String", JString ""); ("Valid", JBool false)]
  end.

Definition null_int_json (v : option Z) : JSON :=
  match v with
  | Some n => JObject [("Int64", JNumber n); ("Valid", JBool true)]
  | None => JObject [("Int64", JNumber 0); ("Valid", JBool false)]
  end.

(** What a client reads for a row of [city]: the key, unless it is 0, and
    the four columns. *)
Definition row_json (r : CityRow) : JSON :=
  JObject
    ((if decide (Row_ID r = 0) then [] else [("id", JNumber (Row_ID r))]) ++
     [("name", null_string_json (Row_Name r));
      ("countryCode", null_string_json (Row_CountryCode r));
      ("district", null_string_json (Row_District r));
      ("population", null_int_json (Row_Population r))])%list.

(** A city whose district and population are NULL in the store. *)
Definition kabul_db : Database :=
  mkDatabase [mkCountry "AFG" "Afghanistan"]
    [mkCityRow 1 (Some "Kabul") (Some "AFG") None None] [].

(** alice logs in with the right password while the session store cannot
    write. *)
Definition alice_unsaved : Database * Sim :=
  (alice_db, mkSim no_body (Ok alice) no_session None None (Some (ErrOther "disk full"))).

(** A request body for city creation with every string empty. *)
Definition blank_city : CityInput := mkCityInput 0 "" "" "" 0.

(** The session of a client that has logged in as alice, and one whose
    [userName] was set to a number by some other writer. *)
Definition alice_session : Session := Values_set no_session "userName" (VString "alice").
Definition odd_session : Session := Values_set no_session "userName" (VInt 7).

Definition with_session (sess : Session) : Sim :=
  mkSim no_body no_body sess None None None.

(** ** Failures *)

Definition result_error {T} (r : result T) : option error :=
  match r with
  | Err err => Some err
  | Ok _ => None
  end.

(** The error of a store call, [sql.ErrNoRows] set apart. *)
Definition store_error {T} (r : result T) : option error :=
  match r with
  | Err err => if is_ErrNoRows err then None else Some err
  | Ok _ => None
  end.

(** The error of a password check, a mismatch set apart. *)
Definition verify_error (r : option error) : option error :=
  match r with
  | Some err => if is_ErrMismatched err then None else Some err
  | None => None
  end.

(** The store, hash or session failure an entry records, if it records
    one.  A body that does not bind is the client's error. *)
Definition failure_of (en : Entry) : option error :=
  match en with
  | entry e a =>
      match e in Ev A return A → option error with
      | Bind_CityInput => λ _, None
      | Bind_LoginRequestBody => λ _, None
      | db_Get _ => store_error
      | db_Exec _ => store_error
      | LastInsertId _ => store_error
      | bcrypt_GenerateFromPassword _ _ => result_error
      | bcrypt_CompareHashAndPassword _ _ => verify_error
      | session_Get _ => result_error
      | session_Save _ => λ r, r
      end a
  end.

Definition is_session_Get (en : Entry) : bool := is_picked pick_session en.
Definition is_session_Save (en : Entry) : bool := is_picked pick_save en.

(** Every failure recorded in [tr], other than those [skip] leaves out, was
    answered by [answer]. *)
Definition collapses (answer : Entry → Outcome) (skip : Entry → bool)
    (tr : list Entry) (o : Outcome) : Prop :=
  Forall (λ en, is_Some (failure_of en) → skip en = false → o = answer en) tr.

(** One answer for every failure: 500 with no body. *)
Definition generic_500 (en : Entry) : Outcome := c_NoContent StatusInternalServerError.

(** What the handlers answer: a fixed text when [session.Get] failed, no
    body otherwise. *)
Definition failure_answer (en : Entry) : Outcome :=
  if is_session_Get en
  then c_String StatusInternalServerError "something wrong in getting session"
  else c_NoContent StatusInternalServerError.

(** The routes of the package; [/me] sits behind the gate. *)
Definition core_handlers : list HandlerFunc :=
  [GetCityInfoHandler; PostCityHandler; SignUpHandler; LoginHandler;
   UserAuthMiddleware GetMeHandler; GetWorldHandler].

(** alice logs in with the right password while [session.Get] fails. *)
Definition alice_no_session : Database * Sim :=
  (alice_db,
   mkSim no_body (Ok alice) no_session None (Some (ErrOther "securecookie: hash key is not set"))
     None).

(** ** The world endpoint *)

(** The entries of an enumeration that found every name: one query per
    offset, from [i] on. *)
Fixpoint offset_entries (query : Z → Query string) (i : Z) (names : list string)
    : list Entry :=
  match names with
  | [] => []
  | name :: rest => entry (db_Get (query i)) (Ok name) :: offset_entries query (i + 1) rest
  end.

(** The names of all countries, and of the cities of one country, in
    ascending order. *)
Definition country_names (db : Database) : list string :=
  merge_sort String.le (Country_Name <$> country db).

Definition city_names (db : Database) (countryCode : string) : list string :=
  merge_sort String.le (omap Row_Name (cities_of db countryCode)).

(** Two countries that share a name. *)
Definition two_congos : Database :=
  mkDatabase [mkCountry "COD" "Congo"; mkCountry "COG" "Congo"] [] [].

(** Japan with two cities, and a country without any. *)
Definition japan_db : Database :=
  mkDatabase [mkCountry "JPN" "Japan"; mkCountry "ATA" "Antarctica"]
    [mkCityRow 1 (Some "Tokyo") (Some "JPN") (Some "Tokyo-to") (Some 7980230);
     mkCityRow 2 (Some "Osaka") (Some "JPN") (Some "Osaka") (Some 2595674)]
    [].

Definition visitor : Sim := client no_body no_body.

(** The handlers other than log-in. *)
Definition other_handlers : list HandlerFunc :=
  [GetCityInfoHandler; PostCityHandler; SignUpHandler;
   UserAuthMiddleware GetMeHandler; GetWorldHandler].

(** ** Further contracts *)

Definition pick_city_by_name (en : Entry) : option (string * result City) :=
  match en with
  | entry e a =>
      match e in Ev A return A → option (string * result City) with
      | db_Get q =>
          match q in Query T return result T → option (string * result City) with
          | Q_city_by_name cityName => λ r, Some (cityName, r)
          | _ => λ _, None
          end
      | _ => λ _, None
      end a
  end.

Definition pick_nth_country (en : Entry) : option (Z * result string) :=
  match en with
  | entry e a =>
      match e in Ev A return A → option (Z * result string) with
      | db_Get q =>
          match q in Query T return result T → option (Z * result string) with
          | Q_nth_country i => λ r, Some (i, r)
          | _ => λ _, None
          end
      | _ => λ _, None
      end a
  end.

Definition is_db_Get (en : Entry) : bool :=
  match en with
  | entry e _ => match e with db_Get _ => true | _ => false end
  end.

Definition is_db_Exec (en : Entry) : bool := is_picked pick_exec en.

(** The runs of [GetCityInfoHandler]: one query, by the name in the path,
    and an answer that follows from what the query returned. *)
Inductive get_city_run (cityName : string) : list Entry → Outcome → Prop :=
  | get_city_found city :
      get_city_run cityName
        [entry (db_Get (Q_city_by_name cityName)) (Ok city)]
        (c_JSON StatusOK
           (JObject
              ((if decide (City_ID city = 0) then [] else [("id", JNumber (City_ID city))]) ++
               [("name", JObject [("String", JString (NS_String (City_Name city)));
                                  ("Valid", JBool (NS_Valid (City_Name city)))]);
                ("countryCode", JObject [("String", JString (NS_String (City_CountryCode city)));
                                         ("Valid", JBool (NS_Valid (City_CountryCode city)))]);
                ("district", JObject [("String", JString (NS_String (City_District city)));
                                      ("Valid", JBool (NS_Valid (City_District city)))]);
                ("population", JObject [("Int64", JNumber (NI_Int64 (City_Population city)));
                                        ("Valid", JBool (NI_Valid (City_Population city)))])])%list))
  | get_city_missing :
      get_city_run cityName
        [entry (db_Get (Q_city_by_name cityName)) (Err ErrNoRows)]
        (c_NoContent StatusNotFound)
  | get_city_failed err :
      err ≠ ErrNoRows →
      get_city_run cityName
        [entry (db_Get (Q_city_by_name cityName)) (Err err)]
        (c_NoContent StatusInternalServerError).

(** The decisions of log-in, in the order it takes them, read off one
    run. *)
Definition login_cascade (tr : list Entry) (o : Outcome) : Prop :=
  match first_of pick_login_body tr with
  | None => False
  | Some (Err _) => o = c_String StatusBadRequest "bad request body" ∧ length tr = 1%nat
  | Some (Ok req) =>
      if empty_field req
      then o = c_String StatusBadRequest "Username or Password is empty" ∧ length tr = 1%nat
      else
        match first_of pick_user_row tr with
        | None => False
        | Some (username, Err err) =>
            username = Req_Username req ∧ length tr = 2%nat ∧
            o = (if is_ErrNoRows err then c_NoContent StatusUnauthorized
                 else c_NoContent StatusInternalServerError)
        | Some (username, Ok user) =>
            username = Req_Username req ∧
            match first_of pick_compare tr with
            | None => False
            | Some (hashed, password, Some err) =>
                hashed = User_HashedPass user ∧ password = Req_Password req ∧
                length tr = 3%nat ∧
                o = (if is_ErrMismatched err then c_NoContent StatusUnauthorized
                     else c_NoContent StatusInternalServerError)
            | Some (hashed, password, None) =>
                hashed = User_HashedPass user ∧ password = Req_Password req ∧
                match first_of pick_session tr with
                | None => False
                | Some (Err _) =>
                    length tr = 4%nat ∧
                    o = c_String StatusInternalServerError "something wrong in getting session"
                | Some (Ok sess) =>
                    length tr = 5%nat ∧ o = c_NoContent StatusOK ∧
                    fst <$> first_of pick_save tr =
                      Some (Values_set sess "userName" (VString (Req_Username req)))
                end
            end
        end
  end.

(** The answer of [/me] behind the gate, from what [session.Get]
    returned. *)
Definition me_answer (s : result Session) : Outcome :=
  match s with
  | Err _ => c_String StatusInternalServerError "something wrong in getting session"
  | Ok sess =>
      match Values_get sess "userName" with
      | VNil => c_String StatusUnauthorized "please login"
      | VString userName =>
          c_JSON StatusOK
            (if decide (userName = "") then JObject []
             else JObject [("username", JString userName)])
      | _ => Panic
      end
  end.

(** A handler that never panics and answers with one of [codes] only. *)
Definition answers_within (codes : list Z) (h : HandlerFunc) : Prop :=
  ∀ W (env : Env W) (w : W) (c : Context),
    ∃ code, status_of (outcome_of env (h c) w) = Some code ∧ code ∈ codes.

(** Two request bodies for city creation that differ in [id] at most. *)
Definition same_fields (a b : CityInput) : Prop :=
  CityInput_Name a = CityInput_Name b ∧
  CityInput_CountryCode a = CityInput_CountryCode b ∧
  CityInput_District a = CityInput_District b ∧
  CityInput_Population a = CityInput_Population b.

(** The handlers that only read. *)
Definition read_handlers : list HandlerFunc :=
  [GetCityInfoHandler; LoginHandler; UserAuthMiddleware GetMeHandler; GetWorldHandler].

Definition is_created (o : Outcome) : bool :=
  bool_decide (status_of o = Some StatusCreated).

Definition pick_count_countries (en : Entry) : option (result Z) :=
  match en with
  | entry e a =>
      match e in Ev A return A → option (result Z) with
      | db_Get q =>
          match q in Query T return result T → option (result Z) with
          | Q_count_countries => Some
          | _ => λ _, None
          end
      | _ => λ _, None
      end a
  end.

(** The answer of an enumeration that was to make [todo] queries and got
    [answers], having [names] already: every answer but the last is a
    name; the list is complete when [todo] names came, and an error ends
    it. *)
Fixpoint enumeration_answer (todo : nat) (answers : list (result string))
    (names : list string) : option Outcome :=
  match todo, answers with
  | O, [] =>
      Some (c_JSON StatusOK
              match names with
              | [] => JNull
              | _ => JArray (JString <$> names)
              end)
  | S todo', Ok name :: rest => enumeration_answer todo' rest (names ++ [name])
  | S _, [Err err] =>
      Some (if is_ErrNoRows err then c_NoContent StatusNotFound
            else c_NoContent StatusInternalServerError)
  | _, _ => None
  end.

(** A store whose count of the countries is one too large, as when a row
    is deleted between the count and the enumeration. *)
Definition stale_count {X} (o : Env X) : Env (Database * X) :=
  mkEnv (λ A (e : Ev A),
    match e in Ev A return Database * X → A * (Database * X) with
    | db_Get q =>
        match q in Query T return Database * X → result T * (Database * X) with
        | Q_count_countries => λ w, (Ok (1 + Z.of_nat (length (country w.1))), w)
        | q => λ w, (sql_Get w.1 q, w)
        end
    | e => handle (with_database o) e
    end).

(** The lookup of a country's code, and the read of one city record. *)
Definition pick_code_lookup (en : Entry) : option (string * result string) :=
  match en with
  | entry e a =>
      match e in Ev A return A → option (string * result string) with
      | db_Get q =>
          match q in Query T return result T → option (string * result string) with
          | Q_country_code countryName => λ r, Some (countryName, r)
          | _ => λ _, None
          end
      | _ => λ _, None
      end a
  end.

Definition pick_city_record (en : Entry) : option (string * string * result City) :=
  match en with
  | entry e a =>
      match e in Ev A return A → option (string * string * result City) with
      | db_Get q =>
          match q in Query T return result T → option (string * string * result City) with
          | Q_city_by_code_and_name countryCode cityName => λ r, Some (countryCode, cityName, r)
          | _ => λ _, None
          end
      | _ => λ _, None
      end a
  end.

Definition is_code_lookup (en : Entry) : bool := is_picked pick_code_lookup en.
Definition is_city_record (en : Entry) : bool := is_picked pick_city_record en.

(** * Verification *)

(** Answer the next call of the program under [run] with a fresh value. *)
Ltac answer :=
  match goal with
  | |- context [handle ?env ?e ?w] =>
      let a := fresh "a" in
      let w' := fresh "w" in
      destruct (handle env e w) as [a w'] eqn:?
  end.

Ltac split_cases :=
  repeat match goal with
  | |- context [bool_decide ?P] => destruct (bool_decide_reflect P)
  | |- context [is_ErrNoRows ?e] => is_var e; destruct e
  | |- context [is_ErrMismatched ?e] => is_var e; destruct e
  | a : result _ |- _ => destruct a
  | a : option error |- _ => destruct a
  end.

Ltac run_handler :=
  unfold outcome_of, trace_of, world_of, empty_field; cbn;
  repeat (first [ answer | progress split_cases ]; cbn).

Ltac finish :=
  repeat split; intros; try done; try lia; try congruence;
  repeat (constructor; try done).

Lemma empty_field_true (req : LoginRequestBody) :
  Req_Password req = "" ∨ Req_Username req = "" → empty_field req = true.
Proof.
  unfold empty_field. intros [H | H]; rewrite (bool_decide_eq_true_2 _ H); [done|].
  by destruct (bool_decide _).
Qed.

Lemma empty_field_false_2 (req : LoginRequestBody) :
  Req_Password req ≠ "" → Req_Username req ≠ "" → empty_field req = false.
Proof.
  unfold empty_field. intros H1 H2.
  by rewrite (bool_decide_eq_false_2 _ H1), (bool_decide_eq_false_2 _ H2).
Qed.

(** C1 (as amended).  Every run of sign-up is one of seven, and in each the
    calls are the ones listed, in this order, and no other: a body that
    does not bind gives 400; an empty username or password gives 400 with
    the fixed text, and nothing has been asked of the store; then the rows
    of the submitted username are counted, and a failing count gives 500,
    a positive count 409 with the fixed text, neither the hash nor the
    insert having been called; then the submitted password is hashed, and
    a failing hash gives 500; then the row with the username and the hash
    is inserted, and a failing insert gives 500; only after an insert that
    succeeded is the answer 201 with no body. *)
Theorem SignUpHandler_cascade {W} (env : Env W) (w : W) (c : Context) :
  signup_run (trace_of env (SignUpHandler c) w) (outcome_of env (SignUpHandler c) w) ∧
  signup_cascade (Some (c_NoContent StatusInternalServerError))
    (trace_of env (SignUpHandler c) w) (outcome_of env (SignUpHandler c) w) ∧
  check_comes_first (trace_of env (SignUpHandler c) w).
Proof.
  split.
  - unfold SignUpHandler. run_handler; econstructor;
      first [ apply empty_field_true; by auto
            | by apply empty_field_false_2
            | lia ].
  - unfold signup_cascade, check_comes_first, SignUpHandler.
    run_handler; finish.
Qed.

Lemma SignUpHandler_on_alice :
  run sim_env (SignUpHandler (path "" "")) (client no_body (Ok alice)) =
  (c_NoContent StatusInternalServerError, client no_body (Ok alice),
   [entry Bind_LoginRequestBody (Ok alice);
    entry (db_Get (Q_count_users "alice")) (Err (ErrOther "dial tcp: connection refused"))]).
Proof. vm_compute. reflexivity. Qed.

(** C1 (as stated) fails.  alice signs up while the database is down: the
    body binds, both fields are filled, the user-count query returns no
    positive number, neither hashing nor an insert fails, since neither is
    reached, and yet the answer is 500, not the 201 of the last case. *)
Lemma SignUpHandler_count_failure_not_201 :
  let w := client no_body (Ok alice) in
  let tr := trace_of sim_env (SignUpHandler (path "" "")) w in
  let o := outcome_of sim_env (SignUpHandler (path "" "")) w in
  (count_positive tr = false ∧ hash_failed tr = false ∧ exec_failed tr = false) ∧
  o = c_NoContent StatusInternalServerError ∧
  ¬ signup_cascade None tr o.
Proof.
  unfold outcome_of, trace_of. rewrite SignUpHandler_on_alice.
  split; [done|]. split; [done|]. intros H. vm_compute in H. discriminate H.
Qed.

(** ** Log-in *)

(** alice signs up, signs up again, logs in and asks who she is; a visitor
    without a session is turned away. *)
Example signup_login_me :
  let env := with_database sim_env in
  let c := path "" "" in
  let start := (mkDatabase [] [] [], client no_body (Ok alice)) in
  let signed_up := world_of env (SignUpHandler c) start in
  let logged_in := world_of env (LoginHandler c) signed_up in
  outcome_of env (SignUpHandler c) start = c_NoContent StatusCreated ∧
  users signed_up.1 = [mkUser "alice" (sim_hash "secret")] ∧
  outcome_of env (SignUpHandler c) signed_up =
    c_String StatusConflict "Username is already used" ∧
  outcome_of env (LoginHandler c) signed_up = c_NoContent StatusOK ∧
  outcome_of env (UserAuthMiddleware GetMeHandler c) logged_in =
    c_JSON StatusOK (JObject [("username", JString "alice")]) ∧
  outcome_of env (UserAuthMiddleware GetMeHandler c) start =
    c_String StatusUnauthorized "please login".
Proof. vm_compute. done. Qed.

Lemma LoginHandler_unknown_user {W} (env : Env W) (w : W) (c : Context) :
  has_credentials (trace_of env (LoginHandler c) w) = true →
  unknown_user (trace_of env (LoginHandler c) w) = true →
  outcome_of env (LoginHandler c) w = c_NoContent StatusUnauthorized.
Proof.
  unfold has_credentials, unknown_user, LoginHandler. run_handler; finish.
Qed.

Lemma LoginHandler_wrong_password {W} (env : Env W) (w : W) (c : Context) :
  has_credentials (trace_of env (LoginHandler c) w) = true →
  wrong_password (trace_of env (LoginHandler c) w) = true →
  outcome_of env (LoginHandler c) w = c_NoContent StatusUnauthorized.
Proof.
  unfold has_credentials, wrong_password, LoginHandler. run_handler; finish.
Qed.

(** C2.  Of two log-in requests that both carry a username and a password,
    one for a user that does not exist and one with a wrong password for a
    user that does, both get 401 with no body: the two answers are equal. *)
Theorem LoginHandler_failures_indistinguishable
    {W1 W2} (env1 : Env W1) (env2 : Env W2) (w1 : W1) (w2 : W2) (c1 c2 : Context) :
  has_credentials (trace_of env1 (LoginHandler c1) w1) = true →
  unknown_user (trace_of env1 (LoginHandler c1) w1) = true →
  has_credentials (trace_of env2 (LoginHandler c2) w2) = true →
  wrong_password (trace_of env2 (LoginHandler c2) w2) = true →
  outcome_of env1 (LoginHandler c1) w1 = c_NoContent StatusUnauthorized ∧
  outcome_of env2 (LoginHandler c2) w2 = c_NoContent StatusUnauthorized ∧
  outcome_of env1 (LoginHandler c1) w1 = outcome_of env2 (LoginHandler c2) w2.
Proof.
  intros H1 U H2 P.
  rewrite (LoginHandler_unknown_user env1 w1 c1 H1 U).
  rewrite (LoginHandler_wrong_password env2 w2 c2 H2 P). done.
Qed.

(** bob, who never signed up, and alice with a wrong password. *)
Lemma LoginHandler_failures_indistinguishable_witness :
  let env := with_database sim_env in
  let bob := (alice_db, client no_body (Ok (mkLoginRequestBody "bob" "secret"))) in
  let mallory := (alice_db, client no_body (Ok (mkLoginRequestBody "alice" "guess"))) in
  outcome_of env (LoginHandler (path "" "")) bob = c_NoContent StatusUnauthorized ∧
  outcome_of env (LoginHandler (path "" "")) mallory = c_NoContent StatusUnauthorized ∧
  outcome_of env (LoginHandler (path "" "")) bob =
  outcome_of env (LoginHandler (path "" "")) mallory.
Proof.
  apply (LoginHandler_failures_indistinguishable (with_database sim_env) (with_database sim_env));
    vm_compute; reflexivity.
Defined.

(** C9.  Whenever log-in reaches the session step, it answers 200 with no
    body, whatever [sess.Save] returned: a failed save changes nothing in
    the answer.  Such a run exists: alice gets 200 while the save fails and
    her session in the store is still the one without a username. *)
Theorem LoginHandler_ignores_save_error :
  (∀ W (env : Env W) (w : W) (c : Context),
     reaches_session_step (trace_of env (LoginHandler c) w) = true →
     outcome_of env (LoginHandler c) w = c_NoContent StatusOK ∧
     is_Some (first_of pick_save (trace_of env (LoginHandler c) w))) ∧
  (let env := with_database sim_env in
   let tr := trace_of env (LoginHandler (path "" "")) alice_unsaved in
   reaches_session_step tr = true ∧
   save_failed tr = true ∧
   outcome_of env (LoginHandler (path "" "")) alice_unsaved = c_NoContent StatusOK ∧
   sim_session (world_of env (LoginHandler (path "" "")) alice_unsaved).2 = no_session).
Proof.
  split.
  - intros W env w c. unfold reaches_session_step, LoginHandler.
    run_handler; finish; eauto.
  - vm_compute. done.
Qed.

(** alice logs in while the session store cannot write. *)
Lemma LoginHandler_ignores_save_error_witness :
  outcome_of (with_database sim_env) (LoginHandler (path "" "")) alice_unsaved
  = c_NoContent StatusOK ∧
  is_Some (first_of pick_save
             (trace_of (with_database sim_env) (LoginHandler (path "" "")) alice_unsaved)).
Proof.
  apply (proj1 LoginHandler_ignores_save_error). vm_compute. reflexivity.
Defined.

(** ** City creation *)

Lemma next_id_fresh (rows : list CityRow) :
  0 < next_id rows ∧ Forall (λ r, Row_ID r < next_id rows) rows.
Proof.
  unfold next_id.
  assert (H : (0 ≤ foldr Z.max 0 (Row_ID <$> rows))%Z ∧
              Forall (λ r, (Row_ID r ≤ foldr Z.max 0 (Row_ID <$> rows))%Z) rows).
  { induction rows as [|r rows [IH1 IH2]]; [by split|]. cbn. split; [lia|].
    constructor; [lia|]. eapply Forall_impl; [exact IH2|]. cbn. intros; lia. }
  destruct H as [H1 H2]. split; [lia|].
  eapply Forall_impl; [exact H2|]. cbn. intros; lia.
Qed.

(** City creation against the store, for a body that binds. *)
Lemma PostCityHandler_stored {X} (o : Env X) (x x' : X) (db : Database)
    (input : CityInput) (c : Context) :
  handle o Bind_CityInput x = (Ok input, x') →
  run (with_database o) (PostCityHandler c) (db, x) =
  let stmt := S_insert_city (CityInput_Name input) (CityInput_CountryCode input)
                (CityInput_District input) (CityInput_Population input) in
  let id := next_id (city db) in
  if decide (has_country db (CityInput_CountryCode input)) then
    (c_JSON StatusCreated
       (created_json id (CityInput_Name input) (CityInput_CountryCode input)
          (CityInput_District input) (CityInput_Population input)),
     (mkDatabase (country db) (city db ++ [row_of_input id input]) (users db), x'),
     [entry Bind_CityInput (Ok input);
      entry (db_Exec stmt) (Ok (mkSqlResult id 1));
      entry (LastInsertId (mkSqlResult id 1)) (Ok id)])
  else
    (c_NoContent StatusInternalServerError, (db, x'),
     [entry Bind_CityInput (Ok input); entry (db_Exec stmt) (Err foreign_key_fails)]).
Proof.
  intros Hbind. unfold PostCityHandler. cbn. rewrite Hbind. cbn.
  destruct (decide (has_country db (CityInput_CountryCode input))) as [Hfk | Hfk].
  - rewrite (bool_decide_eq_true_2 _ Hfk). cbn. done.
  - rewrite (bool_decide_eq_false_2 _ Hfk). cbn. done.
Qed.

(** C8.  Every run of city creation is one of four: a body that does not
    bind gives 400 and no other call is made; a body that binds is passed
    to the insert as it is, its four fields being the statement's
    parameters, with no check in between; a failing insert or a failing
    [LastInsertId] gives 500; otherwise the answer is 201 with the four
    submitted fields and, under "id", the insert id.  Against the store,
    any bound input, blank strings included, whose country code some
    country has becomes a new row under a key that is positive and larger
    than every key of the table, and that key comes back under "id"; an
    input whose country code no country has is refused by the store, which
    gives 500 and leaves the table as it was. *)
Theorem PostCityHandler_contract :
  (∀ W (env : Env W) (w : W) (c : Context),
     post_city_run (trace_of env (PostCityHandler c) w)
       (outcome_of env (PostCityHandler c) w)) ∧
  (∀ X (o : Env X) (x x' : X) (db : Database) (input : CityInput) (c : Context),
     handle o Bind_CityInput x = (Ok input, x') →
     let id := next_id (city db) in
     let out := outcome_of (with_database o) (PostCityHandler c) (db, x) in
     let after := (world_of (with_database o) (PostCityHandler c) (db, x)).1 in
     if decide (has_country db (CityInput_CountryCode input)) then
       out = c_JSON StatusCreated
               (created_json id (CityInput_Name input) (CityInput_CountryCode input)
                  (CityInput_District input) (CityInput_Population input)) ∧
       after = mkDatabase (country db)
                 (city db ++ [mkCityRow id (Some (CityInput_Name input))
                                (Some (CityInput_CountryCode input))
                                (Some (CityInput_District input))
                                (Some (CityInput_Population input))])
                 (users db) ∧
       0 < id ∧
       Forall (λ r, Row_ID r < id) (city db)
     else
       out = c_NoContent StatusInternalServerError ∧ after = db).
Proof.
  split.
  - intros W env w c. unfold PostCityHandler. run_handler; econstructor.
  - intros X o x x' db input c Hbind. cbv zeta.
    unfold outcome_of, world_of. rewrite (PostCityHandler_stored o x x' db input c Hbind).
    cbv zeta. destruct (decide _); cbn; [|done].
    destruct (next_id_fresh (city db)) as [Hpos Hfresh]. done.
Qed.

(** Three bodies.  A city of Afghanistan without a name, a district or a
    population is stored next to Kabul under key 2, and of its fields the
    answer holds the country code alone.  Nara is stored next to Tokyo and
    Osaka under key 3 and comes back field by field.  A body whose strings
    are all empty names no country: the store refuses it. *)
Lemma PostCityHandler_contract_witness :
  let env := with_database sim_env in
  let h := PostCityHandler (path "" "") in
  let nameless := (kabul_db, client (Ok (mkCityInput 0 "" "AFG" "" 0)) no_body) in
  let nara := (japan_db, client (Ok (mkCityInput 0 "Nara" "JPN" "Nara" 360000)) no_body) in
  let blank := (kabul_db, client (Ok blank_city) no_body) in
  (outcome_of env h nameless =
     c_JSON StatusCreated (JObject [("id", JNumber 2); ("countryCode", JString "AFG")]) ∧
   city (world_of env h nameless).1 =
     [mkCityRow 1 (Some "Kabul") (Some "AFG") None None;
      mkCityRow 2 (Some "") (Some "AFG") (Some "") (Some 0)]) ∧
  (outcome_of env h nara =
     c_JSON StatusCreated
       (JObject [("id", JNumber 3); ("name", JString "Nara"); ("countryCode", JString "JPN");
                 ("district", JString "Nara"); ("population", JNumber 360000)]) ∧
   city (world_of env h nara).1 =
     (city japan_db ++ [mkCityRow 3 (Some "Nara") (Some "JPN") (Some "Nara") (Some 360000)])%list) ∧
  (outcome_of env h blank = c_NoContent StatusInternalServerError ∧
   (world_of env h blank).1 = kabul_db).
Proof.
  cbv zeta. split; [|split].
  - pose proof (proj2 PostCityHandler_contract _ sim_env
                  (client (Ok (mkCityInput 0 "" "AFG" "" 0)) no_body)
                  (client (Ok (mkCityInput 0 "" "AFG" "" 0)) no_body)
                  kabul_db (mkCityInput 0 "" "AFG" "" 0) (path "" "") eq_refl) as H.
    cbv zeta in H. destruct (decide _) as [_ | Hno] in H.
    + destruct H as (-> & -> & _). split; vm_compute; reflexivity.
    + destruct Hno. vm_compute. left.
  - pose proof (proj2 PostCityHandler_contract _ sim_env
                  (client (Ok (mkCityInput 0 "Nara" "JPN" "Nara" 360000)) no_body)
                  (client (Ok (mkCityInput 0 "Nara" "JPN" "Nara" 360000)) no_body)
                  japan_db (mkCityInput 0 "Nara" "JPN" "Nara" 360000) (path "" "") eq_refl)
      as H.
    cbv zeta in H. destruct (decide _) as [_ | Hno] in H.
    + destruct H as (-> & -> & _). split; vm_compute; reflexivity.
    + destruct Hno. vm_compute. left.
  - pose proof (proj2 PostCityHandler_contract _ sim_env
                  (client (Ok blank_city) no_body) (client (Ok blank_city) no_body)
                  kabul_db blank_city (path "" "") eq_refl) as H.
    cbv zeta in H. destruct (decide _) as [Hyes | _] in H.
    + exfalso. vm_compute in Hyes. apply list_elem_of_singleton in Hyes. discriminate Hyes.
    + exact H.
Defined.

(** ** Cities as JSON *)

Lemma marshal_City_members (c : City) :
  json_member "name" (marshal_City c) = Some (marshal_NullString (City_Name c)) ∧
  json_member "countryCode" (marshal_City c) = Some (marshal_NullString (City_CountryCode c)) ∧
  json_member "district" (marshal_City c) = Some (marshal_NullString (City_District c)) ∧
  json_member "population" (marshal_City c) = Some (marshal_NullInt64 (City_Population c)).
Proof.
  unfold marshal_City, omitempty_int. destruct (decide (City_ID c = 0)); done.
Qed.

(** C3 (the code at the failing input).  Kabul is stored with NULL district
    and population.  Read back, both keys are in the JSON object, each as
    an object with [Valid] false, and the name that is present is an object
    too, not a string. *)
Theorem GetCityInfoHandler_kabul :
  outcome_of (with_database sim_env) (GetCityInfoHandler (path "" "Kabul"))
    (kabul_db, client no_body no_body) =
  c_JSON StatusOK
    (JObject
       [("id", JNumber 1);
        ("name", JObject [("String", JString "Kabul"); ("Valid", JBool true)]);
        ("countryCode", JObject [("String", JString "AFG"); ("Valid", JBool true)]);
        ("district", JObject [("String", JString ""); ("Valid", JBool false)]);
        ("population", JObject [("Int64", JNumber 0); ("Valid", JBool false)])]).
Proof. vm_compute. reflexivity. Qed.

(** ** The session gate *)

Lemma Values_get_set (sess : Session) (key : string) (v : GoValue) :
  Values_get (Values_set sess key v) key = v.
Proof. unfold Values_get, Values_set. cbn. by rewrite lookup_insert_eq. Qed.

Lemma c_Get_Set (c : Context) (key : string) (v : GoValue) :
  c_Get (c_Set c key v) key = v.
Proof. unfold c_Get, c_Set. cbn. by rewrite lookup_insert_eq. Qed.

Lemma empty_field_false (req : LoginRequestBody) :
  empty_field req = false → Req_Password req ≠ "" ∧ Req_Username req ≠ "".
Proof.
  unfold empty_field. intros H. apply orb_false_iff in H as [H1 H2].
  split; eapply bool_decide_eq_false; eassumption.
Qed.

(** What a session of this package holds under [userName]: nothing, or a
    username that is not empty. *)
Lemma core_session_userName (sess : Session) :
  core_session sess →
  Values_get sess "userName" = VNil ∨
  ∃ userName, userName ≠ "" ∧ Values_get sess "userName" = VString userName.
Proof.
  intros [|s req _ Hreq].
  - left. reflexivity.
  - right. exists (Req_Username req). split.
    + by apply empty_field_false.
    + apply Values_get_set.
Qed.

(** Log-in keeps sessions within [core_session]: what it saves is the
    session it was given, with the validated username stored. *)
Lemma LoginHandler_saves_core_session {W} (env : Env W) (w : W) (c : Context) :
  match first_of pick_session (trace_of env (LoginHandler c) w),
        first_of pick_save (trace_of env (LoginHandler c) w) with
  | Some (Ok sess), Some (saved, _) => core_session sess → core_session saved
  | Some (Err _), Some _ => False
  | None, Some _ => False
  | _, None => True
  end.
Proof.
  unfold LoginHandler. run_handler; try done.
  all: intros Hcore; apply core_login; [done|]; unfold empty_field.
  all: rewrite !bool_decide_eq_false_2; done.
Qed.

Lemma marshal_Me_nonempty (userName : string) :
  userName ≠ "" → marshal_Me (mkMe userName) = JObject [("username", JString userName)].
Proof.
  intros H. unfold marshal_Me, omitempty_string. cbn.
  destruct (decide (userName = "")); done.
Qed.

(** C7.  Behind the gate, for a session of this package that
    [session.Get] returned: without a stored username the answer is 401
    with the text "please login" and the trace holds the session call
    alone, whatever [next] is; with a stored username the context passed on
    holds it under "userName", [next] runs on that context, and with
    [GetMeHandler] as [next] the answer is 200 with the username as
    JSON. *)
Theorem UserAuthMiddleware_gate {W} (env : Env W) (w w1 : W) (sess : Session)
    (next : HandlerFunc) (c : Context) :
  handle env (session_Get "sessions") w = (Ok sess, w1) →
  core_session sess →
  match Values_get sess "userName" with
  | VNil =>
      run env (UserAuthMiddleware next c) w =
      (c_String StatusUnauthorized "please login", w1,
       [entry (session_Get "sessions") (Ok sess)])
  | v =>
      ∃ userName, v = VString userName ∧
        c_Get (c_Set c "userName" v) "userName" = v ∧
        run env (UserAuthMiddleware next c) w =
          (let '(o, w2, tr) := run env (next (c_Set c "userName" v)) w1 in
           (o, w2, entry (session_Get "sessions") (Ok sess) :: tr)) ∧
        run env (UserAuthMiddleware GetMeHandler c) w =
          (c_JSON StatusOK (JObject [("username", JString userName)]), w1,
           [entry (session_Get "sessions") (Ok sess)])
  end.
Proof.
  intros Hget Hcore.
  destruct (core_session_userName sess Hcore) as [Hnil | (u & Hu & Hval)].
  - rewrite Hnil. unfold UserAuthMiddleware. cbn. rewrite Hget, Hnil. done.
  - rewrite Hval. exists u. split; [done|]. split; [apply c_Get_Set|].
    unfold UserAuthMiddleware. cbn. rewrite Hget, Hval. split; [done|].
    unfold GetMeHandler. rewrite c_Get_Set. cbn.
    by rewrite (marshal_Me_nonempty u Hu).
Qed.

Lemma core_session_alice : core_session alice_session.
Proof. exact (core_login no_session alice core_new eq_refl). Qed.

(** alice, logged in, asks for [/me]. *)
Lemma UserAuthMiddleware_gate_witness :
  run sim_env (UserAuthMiddleware GetMeHandler (path "" "")) (with_session alice_session) =
  (c_JSON StatusOK (JObject [("username", JString "alice")]), with_session alice_session,
   [entry (session_Get "sessions") (Ok alice_session)]).
Proof.
  pose proof (UserAuthMiddleware_gate sim_env (with_session alice_session)
                (with_session alice_session) alice_session GetMeHandler (path "" "")
                eq_refl core_session_alice) as H.
  unfold alice_session in *. rewrite Values_get_set in H.
  destruct H as (u & Hu & _ & _ & H). injection Hu as <-. exact H.
Defined.

(** ** Failures *)

Ltac collapse := unfold collapses; repeat constructor; cbn; intros; try done;
  try match goal with H : is_Some None |- _ => by destruct H end.

Lemma fetch_by_offset_collapses {W} (env : Env W) (query : Z → Query string)
    (respond : list string → Outcome) (todo : nat) :
  ∀ (i : Z) (names : list string) (w : W),
    let p := fetch_by_offset query todo i names (λ l, Ret (respond l)) in
    collapses failure_answer is_session_Save (trace_of env p w) (outcome_of env p w) ∧
    Forall (λ en, is_session_Save en = false) (trace_of env p w).
Proof.
  induction todo as [|todo IH]; intros i names w p; subst p.
  - split; collapse.
  - unfold trace_of, outcome_of in *. cbn.
    destruct (handle env (db_Get (query i)) w) as [[name | err] w1].
    + specialize (IH (i + 1) (names ++ [name])%list w1).
      destruct (run env (fetch_by_offset query todo (i + 1) (names ++ [name])%list
                           (λ l, Ret (respond l))) w1) as [[o w2] tr].
      cbn in *. destruct IH as [IH1 IH2]. split.
      * constructor; [cbn; by intros [? ?]|exact IH1].
      * constructor; [done|exact IH2].
    + destruct err; cbn; split; collapse.
Qed.

Lemma GetWorldHandler_collapses {W} (env : Env W) (w : W) (c : Context) :
  collapses failure_answer is_session_Save
    (trace_of env (GetWorldHandler c) w) (outcome_of env (GetWorldHandler c) w) ∧
  Forall (λ en, is_session_Save en = false) (trace_of env (GetWorldHandler c) w).
Proof.
  unfold GetWorldHandler.
  destruct (bool_decide (c_Param c "countryName" = "allCountries")).
  - unfold trace_of, outcome_of. cbn.
    destruct (handle env (db_Get Q_count_countries) w) as [[n | err] w1].
    + pose proof (fetch_by_offset_collapses env Q_nth_country
                    (λ l, c_JSON StatusOK (marshal_strings l)) (Z.to_nat n) 0 [] w1) as H.
      unfold trace_of, outcome_of in H. cbn in H.
      destruct (run env (fetch_by_offset Q_nth_country (Z.to_nat n) 0 [] _) w1)
        as [[o w2] tr].
      cbn in *. destruct H as [H1 H2]. split.
      * constructor; [cbn; by intros [? ?]|exact H1].
      * constructor; [done|exact H2].
    + destruct err; cbn; split; collapse.
  - destruct (bool_decide (c_Param c "cityName" = "allCities")).
    + unfold trace_of, outcome_of. cbn.
      destruct (handle env (db_Get (Q_country_code (c_Param c "countryName"))) w)
        as [[code | err] w1]; [|destruct err; cbn; split; collapse].
      cbn.
      destruct (handle env (db_Get (Q_count_cities code)) w1) as [[n | err] w2];
        [|destruct err; cbn; split; collapse].
      pose proof (fetch_by_offset_collapses env (Q_nth_city code)
                    (λ l, c_JSON StatusOK (marshal_strings l)) (Z.to_nat n) 0 [] w2) as H.
      unfold trace_of, outcome_of in H. cbn in H.
      destruct (run env (fetch_by_offset (Q_nth_city code) (Z.to_nat n) 0 [] _) w2)
        as [[o w3] tr].
      cbn in *. destruct H as [H1 H2]. split.
      * constructor; [cbn; by intros [? ?]|].
        constructor; [cbn; by intros [? ?]|exact H1].
      * constructor; [done|]. constructor; [done|exact H2].
    + run_handler; split; collapse.
Qed.

(** C6 (as amended).  In every handler, every store failure other than
    no-rows, every hashing failure, every password check failure other than
    a mismatch and every failure of [session.Get] is answered with 500, and
    the body is fixed by the kind of call alone: the text "something wrong
    in getting session" after [session.Get], no body otherwise.  Nothing of
    the error itself reaches the client. *)
Theorem handlers_collapse_failures :
  (∀ A (e : Ev A) (a a' : A), failure_answer (entry e a) = failure_answer (entry e a')) ∧
  Forall (λ h : HandlerFunc, ∀ W (env : Env W) (w : W) (c : Context),
            collapses failure_answer is_session_Save
              (trace_of env (h c) w) (outcome_of env (h c) w))
    core_handlers.
Proof.
  split; [by intros A []|].
  unfold core_handlers. repeat constructor; intros W env w c.
  - unfold GetCityInfoHandler. run_handler; collapse.
  - unfold PostCityHandler. run_handler; collapse.
  - unfold SignUpHandler. run_handler; collapse.
  - unfold LoginHandler. run_handler; collapse.
  - unfold UserAuthMiddleware, GetMeHandler. run_handler.
    all: try destruct (Values_get _ _); try rewrite c_Get_Set; cbn; collapse.
  - apply GetWorldHandler_collapses.
Qed.

(** C6 (as stated) fails.  alice logs in twice with the right password,
    once with the database down and once with [session.Get] failing.  Both
    answers are 500, but the second has a body, and the body tells the two
    failures apart: the failures are not collapsed to one answer without a
    body. *)
Lemma LoginHandler_failure_bodies_differ :
  let h := LoginHandler (path "" "") in
  let down := (sim_env, client no_body (Ok alice)) in
  let env := with_database sim_env in
  outcome_of down.1 h down.2 = c_NoContent StatusInternalServerError ∧
  outcome_of env h alice_no_session =
    c_String StatusInternalServerError "something wrong in getting session" ∧
  Exists (λ en, is_Some (failure_of en)) (trace_of down.1 h down.2) ∧
  Exists (λ en, is_Some (failure_of en)) (trace_of env h alice_no_session) ∧
  ¬ collapses generic_500 (λ _, false)
      (trace_of env h alice_no_session) (outcome_of env h alice_no_session).
Proof.
  cbv zeta.
  assert (E1 : run sim_env (LoginHandler (path "" "")) (client no_body (Ok alice)) =
               (c_NoContent StatusInternalServerError, client no_body (Ok alice),
                [entry Bind_LoginRequestBody (Ok alice);
                 entry (db_Get (Q_user_by_name "alice"))
                   (Err (ErrOther "dial tcp: connection refused"))]))
    by (vm_compute; reflexivity).
  assert (E2 : run (with_database sim_env) (LoginHandler (path "" "")) alice_no_session =
               (c_String StatusInternalServerError "something wrong in getting session",
                alice_no_session,
                [entry Bind_LoginRequestBody (Ok alice);
                 entry (db_Get (Q_user_by_name "alice")) (Ok (mkUser "alice" (sim_hash "secret")));
                 entry (bcrypt_CompareHashAndPassword (sim_hash "secret") "secret") None;
                 entry (session_Get "sessions")
                   (Err (ErrOther "securecookie: hash key is not set"))]))
    by (vm_compute; reflexivity).
  unfold outcome_of, trace_of. cbn [fst snd]. rewrite E1, E2. cbn [fst snd].
  split; [done|]. split; [done|]. split.
  { apply Exists_cons_tl, Exists_cons_hd. cbn. eauto. }
  split.
  { do 3 apply Exists_cons_tl. apply Exists_cons_hd. cbn. eauto. }
  intros H. unfold collapses in H.
  apply Forall_cons_1 in H as [_ H]. apply Forall_cons_1 in H as [_ H].
  apply Forall_cons_1 in H as [_ H]. apply Forall_cons_1 in H as [H _].
  cbn in H. specialize (H (mk_is_Some _ _ eq_refl) eq_refl). discriminate H.
Qed.

(** ** The world endpoint against the store *)

Lemma order_by_name_Some (l : list string) :
  order_by_name (Some <$> l) = Some <$> merge_sort String.le l.
Proof.
  unfold order_by_name.
  assert (filter (λ n : option string, n = None) (Some <$> l) = []) as ->.
  { induction l as [|a l IH]; [done|]. rewrite fmap_cons, filter_cons_False; done. }
  assert (omap id (Some <$> l) = l) as ->; [|done].
  induction l as [|a l IH]; [done|]. cbn. by rewrite IH.
Qed.

Lemma names_all_present (rows : list CityRow) :
  Forall (λ r, is_Some (Row_Name r)) rows →
  Row_Name <$> rows = Some <$> omap Row_Name rows ∧
  length (omap Row_Name rows) = length rows.
Proof.
  induction 1 as [|r rows [name Hr] _ [IH1 IH2]]; [done|].
  cbn. rewrite Hr. cbn. by rewrite IH1, IH2.
Qed.

Lemma order_by_name_NULL (l : list (option string)) :
  ¬ Forall is_Some l → ∃ rest, order_by_name l = None :: rest.
Proof.
  unfold order_by_name. intros H.
  assert (∃ nulls, filter (λ n : option string, n = None) l = None :: nulls)
    as [nulls ->]; [|by eexists].
  induction l as [|[a|] l IH].
  - destruct H. constructor.
  - rewrite filter_cons_False by done. apply IH. intros Hl. apply H.
    constructor; [by eexists|done].
  - rewrite filter_cons_True by done. eauto.
Qed.

Lemma limit_1_offset_found (names : list string) (k : nat) (name : string) :
  names !! k = Some name →
  first_row scan_string (limit_1_offset (Z.of_nat k) (Some <$> names)) = Ok name.
Proof.
  intros H. unfold limit_1_offset.
  destruct (decide (Z.of_nat k < 0)); [lia|].
  by rewrite Nat2Z.id, list_lookup_fmap, H.
Qed.

Lemma fetch_by_offset_found {X} (o : Env X) (db : Database) (x : X)
    (query : Z → Query string) (after : list string → Prog Outcome) (rest : list string) :
  ∀ (i : Z) (names : list string),
    (∀ k name, rest !! k = Some name → sql_Get db (query (i + Z.of_nat k)) = Ok name) →
    run (with_database o) (fetch_by_offset query (length rest) i names after) (db, x) =
    (let '(r, w, tr) := run (with_database o) (after (names ++ rest)%list) (db, x) in
     (r, w, (offset_entries query i rest ++ tr)%list)).
Proof.
  induction rest as [|name rest IH]; intros i names Hq.
  - cbn. rewrite app_nil_r. by destruct (run _ _ _) as [[? ?] ?].
  - cbn. pose proof (Hq 0%nat name eq_refl) as H0.
    rewrite Z.add_0_r in H0. rewrite H0. cbn.
    rewrite IH.
    + rewrite <- app_assoc. cbn. by destruct (run _ _ _) as [[? ?] ?].
    + intros k n Hk. rewrite <- (Hq (S k) n Hk). f_equal. f_equal. lia.
Qed.

Lemma country_names_length (db : Database) :
  length (country_names db) = length (country db).
Proof.
  unfold country_names.
  rewrite (Permutation_length (merge_sort_Permutation String.le _)).
  apply length_fmap.
Qed.

Lemma StronglySorted_strict (l : list string) :
  StronglySorted String.le l → NoDup l → StronglySorted (strict String.le) l.
Proof.
  induction 1 as [|a l Hs IH Ha]; intros Hnd; [constructor|].
  apply NoDup_cons in Hnd as [Hin Hnd].
  constructor; [by apply IH|].
  rewrite Forall_forall in Ha |- *. intros b Hb.
  split; [by apply Ha|]. intros Hba.
  assert (a = b) as -> by (apply (anti_symm String.le); [by apply Ha|done]).
  done.
Qed.

(** C4 (as amended).  For a request whose country parameter is
    "allCountries", against any store: the handler asks for the count, then
    for the name at each offset from 0 to count-1, and answers 200 with the
    names of all rows in ascending order, one per row; the order is strict
    when no two rows share a name.  (With no row at all the slice is nil
    and the body is [null].) *)
Theorem GetWorldHandler_allCountries {X} (o : Env X) (x : X) (db : Database)
    (c : Context) :
  c_Param c "countryName" = "allCountries" →
  run (with_database o) (GetWorldHandler c) (db, x) =
    (c_JSON StatusOK (marshal_strings (country_names db)), (db, x),
     entry (db_Get Q_count_countries) (Ok (Z.of_nat (length (country db))))
       :: offset_entries Q_nth_country 0 (country_names db)) ∧
  length (country_names db) = length (country db) ∧
  country_names db ≡ₚ Country_Name <$> country db ∧
  StronglySorted String.le (country_names db) ∧
  (NoDup (Country_Name <$> country db) →
   StronglySorted (strict String.le) (country_names db)).
Proof.
  intros Hc. split; [|split; [|split; [|split]]].
  - unfold GetWorldHandler. rewrite Hc, bool_decide_eq_true_2 by done. cbn.
    rewrite Nat2Z.id, <- country_names_length.
    rewrite (fetch_by_offset_found o db x Q_nth_country _ (country_names db)).
    + cbn. by rewrite app_nil_r.
    + intros k name Hk. cbn. rewrite list_fmap_compose, order_by_name_Some.
      by apply limit_1_offset_found.
  - apply country_names_length.
  - apply merge_sort_Permutation.
  - apply StronglySorted_merge_sort; apply _.
  - intros Hnd. apply StronglySorted_strict.
    + apply StronglySorted_merge_sort; apply _.
    + unfold country_names. by rewrite merge_sort_Permutation.
Qed.

(** Japan and Antarctica. *)
Lemma GetWorldHandler_allCountries_witness :
  outcome_of (with_database sim_env) (GetWorldHandler (path "allCountries" "x"))
    (japan_db, visitor) =
  c_JSON StatusOK (JArray [JString "Antarctica"; JString "Japan"]).
Proof.
  pose proof (GetWorldHandler_allCountries sim_env visitor japan_db
                (path "allCountries" "x")) as H.
  destruct H as [H _]; [vm_compute; reflexivity|].
  unfold outcome_of. rewrite H. vm_compute. reflexivity.
Defined.

(** C4 (as stated) fails.  With two countries that share a name the answer
    lists the name twice: its length is the number of rows, but the order
    is not strict. *)
Lemma GetWorldHandler_allCountries_repeats :
  outcome_of (with_database sim_env) (GetWorldHandler (path "allCountries" "x"))
    (two_congos, visitor) =
  c_JSON StatusOK (JArray [JString "Congo"; JString "Congo"]) ∧
  country_names two_congos = ["Congo"; "Congo"] ∧
  ¬ StronglySorted (strict String.le) (country_names two_congos).
Proof.
  assert (E : country_names two_congos = ["Congo"; "Congo"]) by (vm_compute; reflexivity).
  split; [vm_compute; reflexivity|]. split; [exact E|].
  rewrite E. intros H. apply StronglySorted_inv in H as [_ H].
  apply Forall_cons_1 in H as [[_ H] _]. apply H. reflexivity.
Qed.

Lemma country_code_error (db : Database) (countryName : string) (err : error) :
  sql_Get db (Q_country_code countryName) = Err err → err = ErrNoRows.
Proof.
  cbn. destruct (filter _ (country db)); cbn; congruence.
Qed.

Lemma city_names_length (db : Database) (code : string) :
  Forall (λ r, is_Some (Row_Name r)) (cities_of db code) →
  length (city_names db code) = length (cities_of db code).
Proof.
  intros H. unfold city_names.
  rewrite (Permutation_length (merge_sort_Permutation String.le _)).
  by apply names_all_present.
Qed.

(** The enumeration of the cities of one country, once its code is known. *)
Lemma enumerate_cities {X} (o : Env X) (x : X) (db : Database) (code : string) :
  let p :=
    call! n := db_Get (Q_count_cities code) in
    match n with
    | Err err =>
        if is_ErrNoRows err then Ret (c_NoContent StatusNotFound)
        else Ret (c_NoContent StatusInternalServerError)
    | Ok howManyCities =>
        fetch_by_offset (Q_nth_city code) (Z.to_nat howManyCities) 0 []
          (λ cities, Ret (c_JSON StatusOK (marshal_strings cities)))
    end in
  outcome_of (with_database o) p (db, x) =
  if decide (Forall (λ r, is_Some (Row_Name r)) (cities_of db code))
  then c_JSON StatusOK (marshal_strings (city_names db code))
  else c_NoContent StatusInternalServerError.
Proof.
  intros p. subst p. unfold outcome_of. cbn. rewrite Nat2Z.id.
  destruct (decide _) as [Hall | Hnull].
  - rewrite <- (city_names_length db code Hall).
    rewrite (fetch_by_offset_found o db x (Q_nth_city code) _ (city_names db code)).
    + done.
    + intros k name Hk. cbn.
      destruct (names_all_present _ Hall) as [-> _].
      rewrite order_by_name_Some, Z.add_0_l. by apply limit_1_offset_found.
  - destruct (order_by_name_NULL (Row_Name <$> cities_of db code)) as [rest Hrest].
    { intros H. apply Hnull. rewrite Forall_fmap in H. exact H. }
    destruct (length (cities_of db code)) as [|n] eqn:Hlen.
    { apply nil_length_inv in Hlen. rewrite Hlen in Hnull. destruct Hnull. constructor. }
    cbn -[order_by_name cities_of]. rewrite Hrest. cbn. done.
Qed.

Lemma outcome_of_db_Get {X T} (o : Env X) (db : Database) (x : X) (q : Query T)
    (k : result T → Prog Outcome) :
  outcome_of (with_database o) (Vis (db_Get q) k) (db, x) =
  outcome_of (with_database o) (k (sql_Get db q)) (db, x).
Proof. unfold outcome_of. cbn. by destruct (run _ _ _) as [[? ?] ?]. Qed.

Lemma country_code_found (db : Database) (countryName code : string) :
  sql_Get db (Q_country_code countryName) = Ok code →
  mkCountry code countryName ∈ country db.
Proof.
  cbn. destruct (filter _ (country db)) as [|r rows] eqn:Hrows; cbn; [done|].
  intros [= <-].
  assert (Hr : r ∈ filter (λ r, Country_Name r = countryName) (country db))
    by (rewrite Hrows; left).
  apply list_elem_of_filter in Hr as [<- Hr]. by destruct r.
Qed.

Lemma country_code_missing (db : Database) (countryName : string) (err : error) :
  sql_Get db (Q_country_code countryName) = Err err →
  Forall (λ r, Country_Name r ≠ countryName) (country db).
Proof.
  cbn. destruct (filter _ (country db)) as [|r rows] eqn:Hrows; cbn; [|done].
  intros _. apply Forall_forall. intros r Hr Hname.
  assert (H : r ∈ filter (λ r, Country_Name r = countryName) (country db))
    by (by apply list_elem_of_filter).
  rewrite Hrows in H. by apply elem_of_nil in H.
Qed.

Lemma marshal_scanned_row (r : CityRow) : marshal_City (scan_City r) = row_json r.
Proof.
  unfold marshal_City, scan_City, row_json, omitempty_int. cbn.
  by destruct (Row_Name r), (Row_CountryCode r), (Row_District r), (Row_Population r).
Qed.

(** C5.  For a request whose country parameter is not "allCountries":
    the first call is the lookup of the country's code, and when it finds
    no row the answer is 404 and no other call is made.  Against the store
    the lookup fails only when no country has that name, and the code it
    finds is the code of a country of that name.  With "allCities" a
    successful answer is 200 with the names of the cities of that code as
    a JSON array of strings in ascending order, one per named city ([null]
    when there is none).  With any other city parameter the answer is 404
    when no city has both that code and that name, and otherwise 200 with
    one city row that has both, written as an object with its key and its
    four columns. *)
Theorem GetWorldHandler_drill_down :
  (∀ W (env : Env W) (w : W) (c : Context),
     c_Param c "countryName" ≠ "allCountries" →
     ∃ r rest,
       trace_of env (GetWorldHandler c) w =
         entry (db_Get (Q_country_code (c_Param c "countryName"))) r :: rest ∧
       (r = Err ErrNoRows →
        rest = [] ∧ outcome_of env (GetWorldHandler c) w = c_NoContent StatusNotFound)) ∧
  (∀ X (o : Env X) (x : X) (db : Database) (c : Context),
     c_Param c "countryName" ≠ "allCountries" →
     let out := outcome_of (with_database o) (GetWorldHandler c) (db, x) in
     match sql_Get db (Q_country_code (c_Param c "countryName")) with
     | Err _ =>
         out = c_NoContent StatusNotFound ∧
         Forall (λ r, Country_Name r ≠ c_Param c "countryName") (country db)
     | Ok code =>
         mkCountry code (c_Param c "countryName") ∈ country db ∧
         if bool_decide (c_Param c "cityName" = "allCities") then
           let body := match city_names db code with
                       | [] => JNull
                       | names => JArray (JString <$> names)
                       end in
           (status_of out = Some StatusOK → out = c_JSON StatusOK body) ∧
           (Forall (λ r, is_Some (Row_Name r)) (cities_of db code) →
            out = c_JSON StatusOK body) ∧
           StronglySorted String.le (city_names db code) ∧
           city_names db code ≡ₚ omap Row_Name (cities_of db code)
         else
           match filter (λ r, Row_Name r = Some (c_Param c "cityName")) (cities_of db code) with
           | [] => out = c_NoContent StatusNotFound
           | _ =>
               ∃ r district population,
                 r = mkCityRow (Row_ID r) (Some (c_Param c "cityName")) (Some code)
                       district population ∧
                 r ∈ city db ∧
                 out = c_JSON StatusOK
                         (JObject
                            ((if decide (Row_ID r = 0) then []
                              else [("id", JNumber (Row_ID r))]) ++
                             [("name", JObject [("String", JString (c_Param c "cityName"));
                                                ("Valid", JBool true)]);
                              ("countryCode", JObject [("String", JString code);
                                                       ("Valid", JBool true)]);
                              ("district", null_string_json district);
                              ("population", null_int_json population)])%list)
           end
     end).
Proof.
  split.
  - intros W env w c Hc. unfold GetWorldHandler.
    rewrite bool_decide_eq_false_2 by done.
    destruct (bool_decide (c_Param c "cityName" = "allCities")).
    + unfold trace_of, outcome_of. cbn.
      destruct (handle env (db_Get (Q_country_code _)) w) as [r w1].
      destruct (run env _ w1) as [[o w2] tr] eqn:Hrun. cbn.
      eexists r, tr. split; [done|]. intros ->. cbn in Hrun. by inversion Hrun.
    + run_handler; eexists _, _; (split; [reflexivity|]); intros Hr;
        try discriminate Hr; done.
  - intros X o x db c Hc out. subst out. unfold GetWorldHandler.
    rewrite (bool_decide_eq_false_2 _ Hc).
    destruct (bool_decide (c_Param c "cityName" = "allCities")).
    + rewrite outcome_of_db_Get.
      destruct (sql_Get db (Q_country_code _)) as [code | err] eqn:Hcode.
      * split; [by apply country_code_found|].
        rewrite (enumerate_cities o x db code).
        split; [|split; [|split]].
        -- destruct (decide _); [|cbn; discriminate].
           unfold marshal_strings. by destruct (city_names db code).
        -- intros Hall. destruct (decide _); [|done].
           unfold marshal_strings. by destruct (city_names db code).
        -- apply StronglySorted_merge_sort; apply _.
        -- apply merge_sort_Permutation.
      * split; [|by eapply country_code_missing].
        apply country_code_error in Hcode as ->. done.
    + rewrite outcome_of_db_Get.
      destruct (sql_Get db (Q_country_code _)) as [code | err] eqn:Hcode.
      * split; [by apply country_code_found|].
        rewrite outcome_of_db_Get. cbn -[cities_of marshal_City scan_City].
        destruct (filter _ (cities_of db code)) as [|r rows] eqn:Hrows; [done|].
        assert (Hr : r ∈ filter (λ r, Row_Name r = Some (c_Param c "cityName"))
                       (cities_of db code)) by (rewrite Hrows; left).
        apply list_elem_of_filter in Hr as [Hname Hr].
        unfold cities_of in Hr. apply list_elem_of_filter in Hr as [Hcc Hr].
        exists r, (Row_District r), (Row_Population r).
        split; [destruct r; cbn in *; congruence|]. split; [done|].
        cbn. rewrite marshal_scanned_row. unfold row_json. by rewrite Hname, Hcc.
      * split; [|by eapply country_code_missing].
        apply country_code_error in Hcode as ->. done.
Qed.

(** The cities of Japan, and Tokyo. *)
Lemma GetWorldHandler_drill_down_witness :
  outcome_of (with_database sim_env) (GetWorldHandler (path "Japan" "allCities"))
    (japan_db, visitor) =
    c_JSON StatusOK (JArray [JString "Osaka"; JString "Tokyo"]) ∧
  outcome_of (with_database sim_env) (GetWorldHandler (path "Japan" "Tokyo"))
    (japan_db, visitor) =
    c_JSON StatusOK
      (JObject
         [("id", JNumber 1);
          ("name", JObject [("String", JString "Tokyo"); ("Valid", JBool true)]);
          ("countryCode", JObject [("String", JString "JPN"); ("Valid", JBool true)]);
          ("district", JObject [("String", JString "Tokyo-to"); ("Valid", JBool true)]);
          ("population", JObject [("Int64", JNumber 7980230); ("Valid", JBool true)])]).
Proof.
  split.
  - assert (Hc : c_Param (path "Japan" "allCities") "countryName" ≠ "allCountries")
      by (vm_compute; discriminate).
    pose proof (proj2 GetWorldHandler_drill_down _ sim_env visitor japan_db
                  (path "Japan" "allCities") Hc) as H.
    cbv zeta in H.
    assert (E1 : sql_Get japan_db (Q_country_code (c_Param (path "Japan" "allCities")
                                                     "countryName")) = Ok "JPN")
      by (vm_compute; reflexivity).
    assert (E2 : bool_decide (c_Param (path "Japan" "allCities") "cityName" = "allCities")
                 = true)
      by (vm_compute; reflexivity).
    assert (E3 : city_names japan_db "JPN" = ["Osaka"; "Tokyo"])
      by (vm_compute; reflexivity).
    rewrite E1, E2, E3 in H. destruct H as (_ & _ & H & _). apply H.
    vm_compute. repeat constructor; by eexists.
  - assert (Hc : c_Param (path "Japan" "Tokyo") "countryName" ≠ "allCountries")
      by (vm_compute; discriminate).
    pose proof (proj2 GetWorldHandler_drill_down _ sim_env visitor japan_db
                  (path "Japan" "Tokyo") Hc) as H.
    cbv zeta in H.
    assert (E1 : sql_Get japan_db (Q_country_code (c_Param (path "Japan" "Tokyo")
                                                     "countryName")) = Ok "JPN")
      by (vm_compute; reflexivity).
    assert (E2 : bool_decide (c_Param (path "Japan" "Tokyo") "cityName" = "allCities")
                 = false)
      by (vm_compute; reflexivity).
    assert (E3 : c_Param (path "Japan" "Tokyo") "cityName" = "Tokyo")
      by (vm_compute; reflexivity).
    assert (E4 : filter (λ r, Row_Name r = Some "Tokyo") (cities_of japan_db "JPN") =
                 [mkCityRow 1 (Some "Tokyo") (Some "JPN") (Some "Tokyo-to") (Some 7980230)])
      by (vm_compute; reflexivity).
    rewrite E1, E2, E3, E4 in H.
    destruct H as (_ & r & district & population & Hr & Hin & ->).
    unfold japan_db in Hin. cbn in Hin.
    apply elem_of_cons in Hin as [-> | Hin]; [by injection Hr as <- <-|].
    apply list_elem_of_singleton in Hin as ->. discriminate Hr.
Defined.

(** ** The cast in the gate *)

(** No handler but log-in writes a session. *)
Lemma no_save_elsewhere :
  Forall (λ h : HandlerFunc, ∀ W (env : Env W) (w : W) (c : Context),
            Forall (λ en, is_session_Save en = false) (trace_of env (h c) w))
    other_handlers.
Proof.
  unfold other_handlers. repeat constructor; intros W env w c.
  - unfold GetCityInfoHandler. run_handler; repeat constructor.
  - unfold PostCityHandler. run_handler; repeat constructor.
  - unfold SignUpHandler. run_handler; repeat constructor.
  - unfold UserAuthMiddleware, GetMeHandler. run_handler.
    all: try destruct (Values_get _ _); try rewrite c_Get_Set; cbn; repeat constructor.
  - apply GetWorldHandler_collapses.
Qed.

(** C10.  The cast in the gate is safe on every session log-in writes, and
    on no other value.  Whatever log-in saves holds the submitted username,
    a string, under "userName"; on a session whose value is a string the
    gate goes on to [next].  On a session whose value is neither nil nor a
    string the gate panics: it answers neither 401 nor 500, and [next] is
    not reached.  No other handler writes a session. *)
Theorem UserAuthMiddleware_cast :
  (∀ W (env : Env W) (w : W) (c : Context),
     match first_of pick_save (trace_of env (LoginHandler c) w) with
     | Some (saved, _) =>
         ∃ req, first_of pick_login_body (trace_of env (LoginHandler c) w) = Some (Ok req) ∧
                Values_get saved "userName" = VString (Req_Username req)
     | None => True
     end) ∧
  Forall (λ h : HandlerFunc, ∀ W (env : Env W) (w : W) (c : Context),
            Forall (λ en, is_session_Save en = false) (trace_of env (h c) w))
    other_handlers ∧
  (∀ W (env : Env W) (w w1 : W) (sess : Session) (next : HandlerFunc) (c : Context)
     (userName : string),
     handle env (session_Get "sessions") w = (Ok sess, w1) →
     Values_get sess "userName" = VString userName →
     outcome_of env (UserAuthMiddleware next c) w =
     outcome_of env (next (c_Set c "userName" (VString userName))) w1) ∧
  (∀ W (env : Env W) (w w1 : W) (sess : Session) (next : HandlerFunc) (c : Context),
     handle env (session_Get "sessions") w = (Ok sess, w1) →
     Values_get sess "userName" ≠ VNil →
     (∀ s, Values_get sess "userName" ≠ VString s) →
     run env (UserAuthMiddleware next c) w =
       (Panic, w1, [entry (session_Get "sessions") (Ok sess)]) ∧
     status_of (outcome_of env (UserAuthMiddleware next c) w) = None).
Proof.
  split; [|split; [exact no_save_elsewhere|split]].
  - intros W env w c. unfold LoginHandler. run_handler; try done.
    all: eexists; split; [reflexivity|]; apply Values_get_set.
  - intros W env w w1 sess next c u Hget Hval.
    unfold outcome_of, UserAuthMiddleware. cbn. rewrite Hget, Hval.
    by destruct (run env (next (c_Set c "userName" (VString u))) w1) as [[? ?] ?].
  - intros W env w w1 sess next c Hget Hnil Hstr.
    unfold outcome_of, UserAuthMiddleware. cbn. rewrite Hget.
    destruct (Values_get sess "userName") as [|s| |]; try done.
    by destruct (Hstr s).
Qed.

(** A session whose [userName] is the number 7. *)
Lemma UserAuthMiddleware_cast_witness :
  run sim_env (UserAuthMiddleware GetMeHandler (path "" "")) (with_session odd_session) =
    (Panic, with_session odd_session, [entry (session_Get "sessions") (Ok odd_session)]) ∧
  status_of (outcome_of sim_env (UserAuthMiddleware GetMeHandler (path "" ""))
               (with_session odd_session)) = None.
Proof.
  apply (proj2 (proj2 (proj2 UserAuthMiddleware_cast)) _ sim_env (with_session odd_session)).
  - vm_compute. reflexivity.
  - unfold odd_session. rewrite Values_get_set. discriminate.
  - intros s. unfold odd_session. rewrite Values_get_set. discriminate.
Defined.

(** * Further properties *)

(** ** Reading a city *)

(** X1.  Every run of [GetCityInfoHandler] is one call, the query by the
    name in the path, and its answer is 404 on no rows, 500 on any other
    error, and for a city 200 with the key, unless it is 0, and the four
    nullable fields, each an object of the value and its [Valid] flag.
    Against the store the request changes nothing, so that asking again
    gives the same answer; it answers 404 when no row has that name, with
    the row when one row has it, and with one of the rows of that name
    when several have it. *)
Theorem GetCityInfoHandler_contract :
  (∀ W (env : Env W) (w : W) (c : Context),
     get_city_run (c_Param c "cityName") (trace_of env (GetCityInfoHandler c) w)
       (outcome_of env (GetCityInfoHandler c) w)) ∧
  (∀ X (o : Env X) (x : X) (db : Database) (c : Context),
     let env := with_database o in
     let out := outcome_of env (GetCityInfoHandler c) (db, x) in
     world_of env (GetCityInfoHandler c) (db, x) = (db, x) ∧
     outcome_of env (GetCityInfoHandler c) (world_of env (GetCityInfoHandler c) (db, x)) =
       out ∧
     match filter (λ r, Row_Name r = Some (c_Param c "cityName")) (city db) with
     | [] => out = c_NoContent StatusNotFound
     | [r] => out = c_JSON StatusOK (row_json r)
     | _ => ∃ r, r ∈ city db ∧ Row_Name r = Some (c_Param c "cityName") ∧
                 out = c_JSON StatusOK (row_json r)
     end) ∧
  outcome_of (with_database sim_env) (GetCityInfoHandler (path "" "Osaka"))
    (japan_db, visitor) =
    c_JSON StatusOK
      (JObject
         [("id", JNumber 2);
          ("name", JObject [("String", JString "Osaka"); ("Valid", JBool true)]);
          ("countryCode", JObject [("String", JString "JPN"); ("Valid", JBool true)]);
          ("district", JObject [("String", JString "Osaka"); ("Valid", JBool true)]);
          ("population", JObject [("Int64", JNumber 2595674); ("Valid", JBool true)])]).
Proof.
  split; [|split].
  - intros W env w c. unfold GetCityInfoHandler.
    run_handler; by econstructor.
  - intros X o x db c. cbv zeta.
    assert (Hworld : world_of (with_database o) (GetCityInfoHandler c) (db, x) = (db, x)).
    { unfold world_of, GetCityInfoHandler. cbn.
      by destruct (first_row _ _) as [city | []]. }
    split; [exact Hworld|]. split; [by rewrite Hworld|].
    unfold outcome_of, GetCityInfoHandler. cbn -[marshal_City scan_City].
    destruct (filter _ (city db)) as [|r rows] eqn:Hrows; [done|].
    cbn -[marshal_City scan_City]. rewrite marshal_scanned_row.
    destruct rows; [done|].
    exists r. split; [|split; [|done]].
    + assert (Hr : r ∈ filter (λ r, Row_Name r = Some (c_Param c "cityName")) (city db))
        by (rewrite Hrows; left).
      by apply list_elem_of_filter in Hr as [_ Hr].
    + assert (Hr : r ∈ filter (λ r, Row_Name r = Some (c_Param c "cityName")) (city db))
        by (rewrite Hrows; left).
      by apply list_elem_of_filter in Hr as [Hr _].
  - vm_compute. reflexivity.
Qed.

(** ** Log-in, step by step *)

(** X2.  Every run of log-in follows one cascade: a body that does not bind
    gives 400 with the text "bad request body" and an empty field gives 400
    with its text, both before any other call; then the user row is read
    (no rows 401, other errors 500), then the password is checked against
    the hash of that row (mismatch 401, other errors 500), then the session
    is fetched (failure 500 with its text), and only then is the session
    saved, with the username stored in the session that was fetched, and
    the answer is 200. *)
Theorem LoginHandler_cascade {W} (env : Env W) (w : W) (c : Context) :
  login_cascade (trace_of env (LoginHandler c) w) (outcome_of env (LoginHandler c) w).
Proof.
  unfold login_cascade, LoginHandler. run_handler; finish.
Qed.

(** ** Who am I *)

(** X10.  Behind the gate [/me] makes one call, [session.Get], and its
    answer follows from what that call returned: 500 with a text when it
    failed, 401 when the session holds no username, 200 with the username
    when it holds a string, whatever the context held before, and a panic
    for any other value.  An empty username is left out of the JSON
    object. *)
Theorem UserAuthMiddleware_GetMeHandler {W} (env : Env W) (w : W) (c : Context) :
  run env (UserAuthMiddleware GetMeHandler c) w =
  (me_answer (handle env (session_Get "sessions") w).1,
   (handle env (session_Get "sessions") w).2,
   [entry (session_Get "sessions") (handle env (session_Get "sessions") w).1]).
Proof.
  unfold UserAuthMiddleware, GetMeHandler, me_answer. cbn.
  destruct (handle env (session_Get "sessions") w) as [[sess | err] w1]; cbn; [|done].
  destruct (Values_get sess "userName") as [|u| |]; try done.
  rewrite c_Get_Set. cbn. unfold marshal_Me, omitempty_string. cbn.
  by destruct (decide (u = "")).
Qed.

(** ** City creation and the submitted id *)

(** X12.  City creation does not use the [id] of the request body: two
    bodies that differ in [id] alone lead to the same answer and to the
    same rows in the store. *)
Theorem PostCityHandler_ignores_id {X1 X2} (o1 : Env X1) (o2 : Env X2)
    (x1 x1' : X1) (x2 x2' : X2) (db : Database) (a b : CityInput) (c1 c2 : Context) :
  handle o1 Bind_CityInput x1 = (Ok a, x1') →
  handle o2 Bind_CityInput x2 = (Ok b, x2') →
  same_fields a b →
  outcome_of (with_database o1) (PostCityHandler c1) (db, x1) =
  outcome_of (with_database o2) (PostCityHandler c2) (db, x2) ∧
  (world_of (with_database o1) (PostCityHandler c1) (db, x1)).1 =
  (world_of (with_database o2) (PostCityHandler c2) (db, x2)).1.
Proof.
  intros H1 H2 (Hn & Hc & Hd & Hp).
  unfold outcome_of, world_of.
  rewrite (PostCityHandler_stored o1 x1 x1' db a c1 H1).
  rewrite (PostCityHandler_stored o2 x2 x2' db b c2 H2).
  cbv zeta. unfold row_of_input. rewrite Hn, Hc, Hd, Hp.
  by destruct (decide _).
Qed.

(** The same city sent with id 0 and with id 99. *)
Lemma PostCityHandler_ignores_id_witness :
  let a := mkCityInput 0 "Nara" "JPN" "Nara" 360000 in
  let b := mkCityInput 99 "Nara" "JPN" "Nara" 360000 in
  outcome_of (with_database sim_env) (PostCityHandler (path "" ""))
    (japan_db, client (Ok a) no_body) =
  outcome_of (with_database sim_env) (PostCityHandler (path "" ""))
    (japan_db, client (Ok b) no_body) ∧
  (world_of (with_database sim_env) (PostCityHandler (path "" ""))
     (japan_db, client (Ok a) no_body)).1 =
  (world_of (with_database sim_env) (PostCityHandler (path "" ""))
     (japan_db, client (Ok b) no_body)).1.
Proof.
  apply (PostCityHandler_ignores_id sim_env sim_env
           (client (Ok (mkCityInput 0 "Nara" "JPN" "Nara" 360000)) no_body)
           (client (Ok (mkCityInput 0 "Nara" "JPN" "Nara" 360000)) no_body)
           (client (Ok (mkCityInput 99 "Nara" "JPN" "Nara" 360000)) no_body)
           (client (Ok (mkCityInput 99 "Nara" "JPN" "Nara" 360000)) no_body)
           japan_db
           (mkCityInput 0 "Nara" "JPN" "Nara" 360000)
           (mkCityInput 99 "Nara" "JPN" "Nara" 360000)).
  - vm_compute. reflexivity.
  - vm_compute. reflexivity.
  - repeat split.
Defined.

(** ** What holds of every run of the world endpoint *)

(** An invariant of the enumeration loop: what holds of the two error
    answers and of the answer after the loop holds of the outcome, and what
    holds of every query of the loop holds of every entry. *)
Lemma fetch_by_offset_inv {W} (env : Env W) (query : Z → Query string)
    (respond : list string → Outcome) (P : Outcome → Prop) (Q : Entry → Prop) :
  P (c_NoContent StatusNotFound) →
  P (c_NoContent StatusInternalServerError) →
  (∀ l, P (respond l)) →
  (∀ i r, Q (entry (db_Get (query i)) r)) →
  ∀ (todo : nat) (i : Z) (names : list string) (w : W),
    let p := fetch_by_offset query todo i names (λ l, Ret (respond l)) in
    P (outcome_of env p w) ∧ Forall Q (trace_of env p w).
Proof.
  intros H404 H500 Hok HQ todo.
  induction todo as [|todo IH]; intros i names w p; subst p.
  - split; [apply Hok|constructor].
  - unfold trace_of, outcome_of in *. cbn.
    destruct (handle env (db_Get (query i)) w) as [[name | err] w1].
    + specialize (IH (i + 1) (names ++ [name])%list w1).
      destruct (run env (fetch_by_offset query todo (i + 1) (names ++ [name])%list
                           (λ l, Ret (respond l))) w1) as [[o w2] tr].
      cbn in *. destruct IH as [IH1 IH2]. split; [done|]. by constructor.
    + destruct err; cbn; (split; [done|]); by repeat constructor.
Qed.

Lemma GetWorldHandler_inv {W} (env : Env W) (w : W) (c : Context)
    (P : Outcome → Prop) (Q : Entry → Prop) :
  P (c_NoContent StatusNotFound) →
  P (c_NoContent StatusInternalServerError) →
  (∀ j, P (c_JSON StatusOK j)) →
  (∀ T (q : Query T) r, Q (entry (db_Get q) r)) →
  P (outcome_of env (GetWorldHandler c) w) ∧ Forall Q (trace_of env (GetWorldHandler c) w).
Proof.
  intros H404 H500 Hok HQ. unfold GetWorldHandler.
  destruct (bool_decide (c_Param c "countryName" = "allCountries")).
  - unfold trace_of, outcome_of. cbn.
    destruct (handle env (db_Get Q_count_countries) w) as [[n | err] w1].
    + pose proof (fetch_by_offset_inv env Q_nth_country
                    (λ l, c_JSON StatusOK (marshal_strings l)) P Q H404 H500
                    (λ l, Hok _) (λ i r, HQ _ _ r) (Z.to_nat n) 0 [] w1) as H.
      unfold trace_of, outcome_of in H. cbn in H.
      destruct (run env (fetch_by_offset Q_nth_country (Z.to_nat n) 0 [] _) w1)
        as [[o w2] tr].
      cbn in *. destruct H as [H1 H2]. split; [done|]. by constructor.
    + destruct err; cbn; (split; [done|]); by repeat constructor.
  - destruct (bool_decide (c_Param c "cityName" = "allCities")).
    + unfold trace_of, outcome_of. cbn.
      destruct (handle env (db_Get (Q_country_code (c_Param c "countryName"))) w)
        as [[code | err] w1];
        [|destruct err; cbn; (split; [done|]); by repeat constructor].
      cbn.
      destruct (handle env (db_Get (Q_count_cities code)) w1) as [[n | err] w2];
        [|destruct err; cbn; (split; [done|]); by repeat constructor].
      pose proof (fetch_by_offset_inv env (Q_nth_city code)
                    (λ l, c_JSON StatusOK (marshal_strings l)) P Q H404 H500
                    (λ l, Hok _) (λ i r, HQ _ _ r) (Z.to_nat n) 0 [] w2) as H.
      unfold trace_of, outcome_of in H. cbn in H.
      destruct (run env (fetch_by_offset (Q_nth_city code) (Z.to_nat n) 0 [] _) w2)
        as [[o w3] tr].
      cbn in *. destruct H as [H1 H2]. split; [done|]. by repeat constructor.
    + run_handler; (split; [done|]); by repeat constructor.
Qed.

(** ** Status codes *)

Ltac within := eexists; split; [reflexivity|]; set_solver.

(** X11.  No handler other than the gate panics, and each answers with one
    of a few status codes only: reading a city with 200, 404 or 500; city
    creation with 201, 400 or 500; sign-up with 201, 400, 409 or 500;
    log-in with 200, 400, 401 or 500; the world endpoint with 200, 404 or
    500. *)
Theorem handlers_status_codes :
  answers_within [200; 404; 500] GetCityInfoHandler ∧
  answers_within [201; 400; 500] PostCityHandler ∧
  answers_within [201; 400; 409; 500] SignUpHandler ∧
  answers_within [200; 400; 401; 500] LoginHandler ∧
  answers_within [200; 404; 500] GetWorldHandler.
Proof.
  repeat split; intros W env w c.
  - unfold GetCityInfoHandler. run_handler; within.
  - unfold PostCityHandler. run_handler; within.
  - unfold SignUpHandler. run_handler; within.
  - unfold LoginHandler. run_handler; within.
  - apply (GetWorldHandler_inv env w c
             (λ o, ∃ code, status_of o = Some code ∧ code ∈ [200; 404; 500])
             (λ _, True)); try done; intros; within.
Qed.

(** ** Handlers that only read *)

(** The store changes through [db.Exec] alone. *)
Lemma with_database_frame {X R} (o : Env X) (p : Prog R) :
  ∀ (db : Database) (x : X),
    Forall (λ en, is_db_Exec en = false) (trace_of (with_database o) p (db, x)) →
    (world_of (with_database o) p (db, x)).1 = db.
Proof.
  induction p as [r | A e k IH]; intros db x; [done|].
  unfold trace_of, world_of in *.
  destruct e; cbn;
    try (destruct (handle o _ x) as [a x1]; cbn);
    try (destruct (sql_Exec db _) as [res db1]; cbn);
    match goal with
    | |- context [run (with_database o) (k ?a) ?w] =>
        specialize (IH a w.1 w.2); cbn in IH;
        destruct (run (with_database o) (k a) w) as [[r1 w2] tr]
    end; cbn in *; intros H; apply Forall_cons_1 in H as [H1 H2]; try done; by apply IH.
Qed.

(** X3.  Reading a city, log-in, [/me] behind the gate and the world
    endpoint never call [db.Exec], whatever they are answered; against the
    store, the database after the request is the database before it. *)
Theorem read_handlers_never_write :
  Forall (λ h : HandlerFunc,
            (∀ W (env : Env W) (w : W) (c : Context),
               Forall (λ en, is_db_Exec en = false) (trace_of env (h c) w)) ∧
            (∀ X (o : Env X) (x : X) (db : Database) (c : Context),
               (world_of (with_database o) (h c) (db, x)).1 = db))
    read_handlers.
Proof.
  assert (Hread : Forall (λ h : HandlerFunc,
            ∀ W (env : Env W) (w : W) (c : Context),
              Forall (λ en, is_db_Exec en = false) (trace_of env (h c) w)) read_handlers).
  { unfold read_handlers. repeat constructor; intros W env w c.
    - unfold GetCityInfoHandler. run_handler; repeat constructor.
    - unfold LoginHandler. run_handler; repeat constructor.
    - unfold UserAuthMiddleware, GetMeHandler. run_handler.
      all: try destruct (Values_get _ _); try rewrite c_Get_Set; cbn; repeat constructor.
    - apply (GetWorldHandler_inv env w c (λ _, True)); done. }
  eapply Forall_impl; [exact Hread|]. intros h Hh. split; [exact Hh|].
  intros X o x db c. apply with_database_frame, Hh.
Qed.

(** ** Sign-up against the store *)

Lemma filter_length_0 {A} (P : A → Prop) `{∀ a, Decision (P a)} (l : list A) :
  ¬ Z.of_nat (length (filter P l)) > 0 → filter P l = [].
Proof. intros Hn. apply nil_length_inv. lia. Qed.

(** A sign-up that answers 201: what was asked and what was stored. *)
Lemma SignUpHandler_created {X} (o : Env X) (x : X) (db : Database) (c : Context) :
  is_created (outcome_of (with_database o) (SignUpHandler c) (db, x)) = true →
  ∃ req hashed,
    first_of pick_login_body (trace_of (with_database o) (SignUpHandler c) (db, x))
      = Some (Ok req) ∧
    empty_field req = false ∧
    first_of pick_hash (trace_of (with_database o) (SignUpHandler c) (db, x))
      = Some (Req_Password req, Ok hashed) ∧
    filter (λ u, User_Username u = Req_Username req) (users db) = [] ∧
    (world_of (with_database o) (SignUpHandler c) (db, x)).1 =
      mkDatabase (country db) (city db)
        (users db ++ [mkUser (Req_Username req) hashed]).
Proof.
  unfold is_created, SignUpHandler, outcome_of, trace_of, world_of. cbn.
  destruct (handle o Bind_LoginRequestBody x) as [[req | err] x1]; cbn; [|done].
  destruct (bool_decide_reflect (Req_Password req = "")); cbn; [done|].
  destruct (bool_decide_reflect (Req_Username req = "")); cbn; [done|].
  destruct (bool_decide_reflect
              (Z.of_nat (length (filter (λ u, User_Username u = Req_Username req)
                                   (users db))) > 0)) as [|Hcount]; cbn; [done|].
  destruct (handle o (bcrypt_GenerateFromPassword _ _) x1) as [[hashed | err] x2];
    cbn; [|done].
  intros _. exists req, hashed. repeat split.
  - unfold empty_field. by rewrite !bool_decide_eq_false_2.
  - by apply filter_length_0.
Qed.

(** A sign-up for a username that has a row already. *)
Lemma SignUpHandler_taken {X} (o : Env X) (x x' : X) (db : Database) (c : Context)
    (req : LoginRequestBody) (row : User) :
  handle o Bind_LoginRequestBody x = (Ok req, x') →
  empty_field req = false →
  row ∈ users db →
  User_Username row = Req_Username req →
  outcome_of (with_database o) (SignUpHandler c) (db, x) =
    c_String StatusConflict "Username is already used" ∧
  world_of (with_database o) (SignUpHandler c) (db, x) = (db, x') ∧
  Forall (λ en, is_hash_or_exec en = false)
    (trace_of (with_database o) (SignUpHandler c) (db, x)).
Proof.
  intros Hbind Hreq Hrow Hname.
  apply empty_field_false in Hreq as [Hp Hu].
  unfold SignUpHandler, outcome_of, trace_of, world_of. cbn. rewrite Hbind. cbn.
  rewrite !bool_decide_eq_false_2 by done. cbn.
  rewrite bool_decide_eq_true_2; [cbn; by repeat constructor|].
  assert (row ∈ filter (λ u, User_Username u = Req_Username req) (users db))
    by (by apply list_elem_of_filter).
  destruct (filter _ (users db)); [by apply elem_of_nil in H|cbn; lia].
Qed.

(** X4.  Against the store, sign-up leaves the countries and the cities as
    they are, and it changes the users only when it answers 201: then the
    username had no row before, and the one row added holds the username of
    the request and, as the password, what bcrypt returned for the
    password of the request. *)
Theorem SignUpHandler_store_effect {X} (o : Env X) (x : X) (db : Database)
    (c : Context) :
  let env := with_database o in
  let tr := trace_of env (SignUpHandler c) (db, x) in
  let after := (world_of env (SignUpHandler c) (db, x)).1 in
  country after = country db ∧
  city after = city db ∧
  if is_created (outcome_of env (SignUpHandler c) (db, x))
  then ∃ req hashed,
         first_of pick_login_body tr = Some (Ok req) ∧
         first_of pick_hash tr = Some (Req_Password req, Ok hashed) ∧
         filter (λ u, User_Username u = Req_Username req) (users db) = [] ∧
         users after = (users db ++ [mkUser (Req_Username req) hashed])%list
  else users after = users db.
Proof.
  cbv zeta.
  destruct (is_created _) eqn:Hcreated.
  - destruct (SignUpHandler_created o x db c Hcreated)
      as (req & hashed & Hreq & _ & Hhash & Hnew & ->).
    cbn. repeat split. by exists req, hashed.
  - revert Hcreated.
    unfold is_created, SignUpHandler, outcome_of, trace_of, world_of. cbn.
    destruct (handle o Bind_LoginRequestBody x) as [[req | err] x1]; cbn; [|done].
    destruct (bool_decide (Req_Password req = "")); cbn; [done|].
    destruct (bool_decide (Req_Username req = "")); cbn; [done|].
    destruct (bool_decide (_ > 0)); cbn; [done|].
    destruct (handle o (bcrypt_GenerateFromPassword _ _) x1) as [[hashed | err] x2];
      cbn; done.
Qed.

(** X5.  Against the store, once a sign-up has answered 201, every later
    sign-up with that username and a password is answered 409 with the
    text "Username is already used", without hashing anything and without
    changing the store. *)
Theorem SignUpHandler_twice {X1 X2} (o1 : Env X1) (o2 : Env X2) (x1 : X1)
    (x2 x2' : X2) (db : Database) (c1 c2 : Context) (req1 req2 : LoginRequestBody) :
  let first := run (with_database o1) (SignUpHandler c1) (db, x1) in
  let after := first.1.2.1 in
  is_created first.1.1 = true →
  first_of pick_login_body first.2 = Some (Ok req1) →
  handle o2 Bind_LoginRequestBody x2 = (Ok req2, x2') →
  Req_Username req2 = Req_Username req1 →
  Req_Password req2 ≠ "" →
  outcome_of (with_database o2) (SignUpHandler c2) (after, x2) =
    c_String StatusConflict "Username is already used" ∧
  world_of (with_database o2) (SignUpHandler c2) (after, x2) = (after, x2') ∧
  Forall (λ en, is_hash_or_exec en = false)
    (trace_of (with_database o2) (SignUpHandler c2) (after, x2)).
Proof.
  intros first after Hcreated Hreq1 Hbind Hname Hpass. subst first after.
  destruct (SignUpHandler_created o1 x1 db c1 Hcreated)
    as (req & hashed & Hreq & Hfilled & _ & _ & Hdb).
  unfold trace_of in Hreq. rewrite Hreq in Hreq1. injection Hreq1 as ->.
  unfold world_of in Hdb. rewrite Hdb.
  apply (SignUpHandler_taken o2 x2 x2' _ c2 req2 (mkUser (Req_Username req1) hashed));
    [done| |cbn; set_solver|by cbn].
  apply empty_field_false in Hfilled as [_ Hu].
  unfold empty_field. rewrite !bool_decide_eq_false_2; [done|congruence|done].
Qed.

(** alice signs up twice. *)
Lemma SignUpHandler_twice_witness :
  let env := with_database sim_env in
  let start := (mkDatabase [] [] [], client no_body (Ok alice)) in
  let after := (world_of env (SignUpHandler (path "" "")) start).1 in
  outcome_of env (SignUpHandler (path "" "")) (after, client no_body (Ok alice)) =
    c_String StatusConflict "Username is already used" ∧
  world_of env (SignUpHandler (path "" "")) (after, client no_body (Ok alice)) =
    (after, client no_body (Ok alice)) ∧
  Forall (λ en, is_hash_or_exec en = false)
    (trace_of env (SignUpHandler (path "" "")) (after, client no_body (Ok alice))).
Proof.
  apply (SignUpHandler_twice sim_env sim_env (client no_body (Ok alice))
           (client no_body (Ok alice)) (client no_body (Ok alice))
           (mkDatabase [] [] []) (path "" "") (path "" "") alice alice).
  - vm_compute. reflexivity.
  - vm_compute. reflexivity.
  - vm_compute. reflexivity.
  - reflexivity.
  - discriminate.
Defined.

(** X6.  Against the store, a log-in that follows a sign-up answered 201,
    with the same username and some password, finds the row of that
    sign-up and checks its password against the hash bcrypt returned
    then. *)
Theorem LoginHandler_after_SignUpHandler {X1 X2} (o1 : Env X1) (o2 : Env X2)
    (x1 : X1) (x2 x2' : X2) (db : Database) (c1 c2 : Context)
    (req1 req2 : LoginRequestBody) (hashed : string) :
  let first := run (with_database o1) (SignUpHandler c1) (db, x1) in
  let after := first.1.2.1 in
  is_created first.1.1 = true →
  first_of pick_login_body first.2 = Some (Ok req1) →
  first_of pick_hash first.2 = Some (Req_Password req1, Ok hashed) →
  handle o2 Bind_LoginRequestBody x2 = (Ok req2, x2') →
  Req_Username req2 = Req_Username req1 →
  Req_Password req2 ≠ "" →
  let tr := trace_of (with_database o2) (LoginHandler c2) (after, x2) in
  first_of pick_user_row tr =
    Some (Req_Username req1, Ok (mkUser (Req_Username req1) hashed)) ∧
  fst <$> first_of pick_compare tr = Some (hashed, Req_Password req2).
Proof.
  intros first after Hcreated Hreq1 Hhash1 Hbind Hname Hpass tr. subst first after tr.
  destruct (SignUpHandler_created o1 x1 db c1 Hcreated)
    as (req & h & Hreq & Hfilled & Hhash & Hnew & Hdb).
  unfold trace_of in Hreq, Hhash. rewrite Hreq in Hreq1. injection Hreq1 as ->.
  rewrite Hhash in Hhash1. injection Hhash1 as ->.
  unfold world_of in Hdb. rewrite Hdb.
  apply empty_field_false in Hfilled as [_ Hu].
  unfold trace_of, LoginHandler. cbn. rewrite Hbind. cbn.
  rewrite !bool_decide_eq_false_2 by congruence. cbn.
  rewrite Hname, filter_app, Hnew, filter_cons_True by done. cbn.
  destruct (handle o2 (bcrypt_CompareHashAndPassword hashed (Req_Password req2)) x2')
    as [[err|] x3]; cbn.
  - by destruct (is_ErrMismatched err).
  - destruct (handle o2 (session_Get "sessions") x3) as [[sess | err] x4]; cbn; [|done].
    by destruct (handle o2 (session_Save _) x4) as [r x5].
Qed.

(** alice signs up and then logs in with a guessed password. *)
Lemma LoginHandler_after_SignUpHandler_witness :
  let env := with_database sim_env in
  let start := (mkDatabase [] [] [], client no_body (Ok alice)) in
  let after := (world_of env (SignUpHandler (path "" "")) start).1 in
  let guess := client no_body (Ok (mkLoginRequestBody "alice" "guess")) in
  let tr := trace_of env (LoginHandler (path "" "")) (after, guess) in
  first_of pick_user_row tr = Some ("alice", Ok (mkUser "alice" (sim_hash "secret"))) ∧
  fst <$> first_of pick_compare tr = Some (sim_hash "secret", "guess").
Proof.
  apply (LoginHandler_after_SignUpHandler sim_env sim_env (client no_body (Ok alice))
           (client no_body (Ok (mkLoginRequestBody "alice" "guess")))
           (client no_body (Ok (mkLoginRequestBody "alice" "guess")))
           (mkDatabase [] [] []) (path "" "") (path "" "") alice
           (mkLoginRequestBody "alice" "guess") (sim_hash "secret")).
  - vm_compute. reflexivity.
  - vm_compute. reflexivity.
  - vm_compute. reflexivity.
  - vm_compute. reflexivity.
  - reflexivity.
  - discriminate.
Defined.

(** ** Creating a city and reading it back *)

Lemma filter_none {A} (P : A → Prop) `{∀ a, Decision (P a)} (l : list A) :
  Forall (λ a, ¬ P a) l → filter P l = [].
Proof.
  induction 1 as [|a l Ha _ IH]; [done|]. by rewrite filter_cons_False.
Qed.

(** X7.  Against the store, a city whose country code some country has
    and whose name no row has yet is created under a positive key, which
    the answer to the creation holds under "id"; read back by its name, it
    comes with that key and with the submitted name, country code,
    district and population, each marked valid. *)
Theorem PostCityHandler_then_GetCityInfoHandler {X1 X2} (o1 : Env X1) (o2 : Env X2)
    (x1 x1' : X1) (x2 : X2) (db : Database) (input : CityInput) (c1 c2 : Context) :
  handle o1 Bind_CityInput x1 = (Ok input, x1') →
  has_country db (CityInput_CountryCode input) →
  Forall (λ r, Row_Name r ≠ Some (CityInput_Name input)) (city db) →
  c_Param c2 "cityName" = CityInput_Name input →
  let id := next_id (city db) in
  let after := (world_of (with_database o1) (PostCityHandler c1) (db, x1)).1 in
  0 < id ∧
  outcome_of (with_database o1) (PostCityHandler c1) (db, x1) =
    c_JSON StatusCreated
      (JObject
         (("id", JNumber id) ::
          (if decide (CityInput_Name input = "") then []
           else [("name", JString (CityInput_Name input))]) ++
          (if decide (CityInput_CountryCode input = "") then []
           else [("countryCode", JString (CityInput_CountryCode input))]) ++
          (if decide (CityInput_District input = "") then []
           else [("district", JString (CityInput_District input))]) ++
          (if decide (CityInput_Population input = 0) then []
           else [("population", JNumber (CityInput_Population input))]))%list) ∧
  outcome_of (with_database o2) (GetCityInfoHandler c2) (after, x2) =
    c_JSON StatusOK
      (JObject
         [("id", JNumber id);
          ("name", JObject [("String", JString (CityInput_Name input));
                            ("Valid", JBool true)]);
          ("countryCode", JObject [("String", JString (CityInput_CountryCode input));
                                   ("Valid", JBool true)]);
          ("district", JObject [("String", JString (CityInput_District input));
                                ("Valid", JBool true)]);
          ("population", JObject [("Int64", JNumber (CityInput_Population input));
                                  ("Valid", JBool true)])]).
Proof.
  intros Hbind Hfk Hnew Hname id after. subst id after.
  destruct (next_id_fresh (city db)) as [Hpos _].
  unfold outcome_of, world_of. rewrite (PostCityHandler_stored o1 x1 x1' db input c1 Hbind).
  cbv zeta. destruct (decide _) as [_|]; [|done]. cbn [fst snd].
  split; [done|]. split.
  - unfold created_json.
    destruct (decide (next_id (city db) = 0)) as [H0|_]; [lia|]. done.
  - unfold GetCityInfoHandler. cbn -[marshal_City scan_City].
    rewrite Hname, filter_app, (filter_none _ _ Hnew), filter_cons_True by done.
    cbn -[marshal_City scan_City]. rewrite marshal_scanned_row.
    unfold row_json. cbn.
    destruct (decide (next_id (city db) = 0)) as [H0|_]; [lia|]. done.
Qed.

(** Nara is created next to Tokyo and Osaka and read back. *)
Lemma PostCityHandler_then_GetCityInfoHandler_witness :
  let nara := mkCityInput 0 "Nara" "JPN" "Nara" 360000 in
  let env := with_database sim_env in
  let after := (world_of env (PostCityHandler (path "" ""))
                  (japan_db, client (Ok nara) no_body)).1 in
  outcome_of env (PostCityHandler (path "" "")) (japan_db, client (Ok nara) no_body) =
    c_JSON StatusCreated
      (JObject [("id", JNumber 3); ("name", JString "Nara"); ("countryCode", JString "JPN");
                ("district", JString "Nara"); ("population", JNumber 360000)]) ∧
  outcome_of env (GetCityInfoHandler (path "" "Nara")) (after, visitor) =
    c_JSON StatusOK
      (JObject
         [("id", JNumber 3);
          ("name", JObject [("String", JString "Nara"); ("Valid", JBool true)]);
          ("countryCode", JObject [("String", JString "JPN"); ("Valid", JBool true)]);
          ("district", JObject [("String", JString "Nara"); ("Valid", JBool true)]);
          ("population", JObject [("Int64", JNumber 360000); ("Valid", JBool true)])]).
Proof.
  refine (proj2 (PostCityHandler_then_GetCityInfoHandler sim_env sim_env
           (client (Ok (mkCityInput 0 "Nara" "JPN" "Nara" 360000)) no_body)
           (client (Ok (mkCityInput 0 "Nara" "JPN" "Nara" 360000)) no_body)
           visitor japan_db (mkCityInput 0 "Nara" "JPN" "Nara" 360000)
           (path "" "") (path "" "Nara") _ _ _ _)).
  - vm_compute. reflexivity.
  - vm_compute. left.
  - repeat constructor; discriminate.
  - vm_compute. reflexivity.
Defined.

(** ** Enumerating the countries, whatever the store answers *)

Lemma fetch_by_offset_replay {W} (env : Env W) (todo : nat) :
  ∀ (i : Z) (names : list string) (w : W),
    let p := fetch_by_offset Q_nth_country todo i names
               (λ l, Ret (c_JSON StatusOK (marshal_strings l))) in
    let asked := omap pick_nth_country (trace_of env p w) in
    length (trace_of env p w) = length asked ∧
    asked.*1 = seqZ i (Z.of_nat (length asked)) ∧
    enumeration_answer todo asked.*2 names = Some (outcome_of env p w).
Proof.
  induction todo as [|todo IH]; intros i names w p asked; subst p asked; [done|].
  unfold trace_of, outcome_of in *. cbn.
  destruct (handle env (db_Get (Q_nth_country i)) w) as [[name | err] w1].
  - specialize (IH (i + 1) (names ++ [name])%list w1).
    destruct (run env (fetch_by_offset Q_nth_country todo (i + 1) (names ++ [name])%list
                         _) w1) as [[o w2] tr].
    cbn in *. destruct IH as (IH1 & IH2 & IH3). repeat split.
    + by rewrite IH1.
    + rewrite seqZ_cons by lia. f_equal. rewrite IH2. f_equal; lia.
    + done.
  - by destruct err.
Qed.

(** X8.  For a request whose country parameter is "allCountries",
    whatever the store answers: a failing count gives 404 on no rows and
    500 otherwise, with no other call.  After a count of n the handler asks
    for the offsets 0, 1, 2, ... in this order and stops at the first
    error, which gives 404 on no rows and 500 otherwise, the names read so
    far being dropped; when n names came, the answer is 200 with these
    names in the order they came.  A count of zero or less asks for no
    offset and gives 200 with the body [null]. *)
Theorem GetWorldHandler_enumeration {W} (env : Env W) (w : W) (c : Context) :
  c_Param c "countryName" = "allCountries" →
  let tr := trace_of env (GetWorldHandler c) w in
  let out := outcome_of env (GetWorldHandler c) w in
  let asked := omap pick_nth_country tr in
  match first_of pick_count_countries tr with
  | None => False
  | Some (Err err) =>
      length tr = 1%nat ∧
      out = (if is_ErrNoRows err then c_NoContent StatusNotFound
             else c_NoContent StatusInternalServerError)
  | Some (Ok n) =>
      length tr = S (length asked) ∧
      asked.*1 = seqZ 0 (Z.of_nat (length asked)) ∧
      enumeration_answer (Z.to_nat n) asked.*2 [] = Some out ∧
      ((n ≤ 0)%Z → asked = [] ∧ out = c_JSON StatusOK JNull)
  end.
Proof.
  intros Hc. cbv zeta. unfold GetWorldHandler.
  rewrite Hc, bool_decide_eq_true_2 by done.
  unfold trace_of, outcome_of. cbn.
  destruct (handle env (db_Get Q_count_countries) w) as [[n | err] w1].
  - pose proof (fetch_by_offset_replay env (Z.to_nat n) 0 [] w1) as H.
    cbv zeta in H. unfold trace_of, outcome_of in H.
    destruct (run env (fetch_by_offset Q_nth_country (Z.to_nat n) 0 [] _) w1)
      as [[o w2] tr].
    cbn in *. destruct H as (H1 & H2 & H3).
    split; [by rewrite H1|]. split; [done|]. split; [done|].
    intros Hn. replace (Z.to_nat n) with 0%nat in H3 by lia.
    destruct (omap pick_nth_country tr); [|done].
    split; [done|]. cbn in H3. congruence.
  - by destruct err.
Qed.

(** Three stores.  With Japan and Antarctica the handler asks for the
    count and for the offsets 0 and 1, and answers with both names.  When
    the count says 3 for these two rows, a third query is made, it finds no
    row, and the answer is 404 with the two names dropped.  When the store
    is down, the count is the only call and the answer is 500. *)
Lemma GetWorldHandler_enumeration_witness :
  let c := path "allCountries" "x" in
  let start := (japan_db, visitor) in
  (outcome_of (with_database sim_env) (GetWorldHandler c) start =
     c_JSON StatusOK (JArray [JString "Antarctica"; JString "Japan"]) ∧
   length (trace_of (with_database sim_env) (GetWorldHandler c) start) = 3%nat) ∧
  (outcome_of (stale_count sim_env) (GetWorldHandler c) start =
     c_NoContent StatusNotFound ∧
   length (trace_of (stale_count sim_env) (GetWorldHandler c) start) = 4%nat) ∧
  (outcome_of sim_env (GetWorldHandler c) visitor =
     c_NoContent StatusInternalServerError ∧
   length (trace_of sim_env (GetWorldHandler c) visitor) = 1%nat).
Proof.
  cbv zeta.
  assert (Hc : c_Param (path "allCountries" "x") "countryName" = "allCountries")
    by (vm_compute; reflexivity).
  split; [|split].
  - pose proof (GetWorldHandler_enumeration (with_database sim_env) (japan_db, visitor)
                  (path "allCountries" "x") Hc) as H.
    cbv zeta in H.
    assert (E1 : first_of pick_count_countries
                   (trace_of (with_database sim_env)
                      (GetWorldHandler (path "allCountries" "x")) (japan_db, visitor))
                 = Some (Ok 2))
      by (vm_compute; reflexivity).
    assert (E2 : omap pick_nth_country
                   (trace_of (with_database sim_env)
                      (GetWorldHandler (path "allCountries" "x")) (japan_db, visitor))
                 = [(0, Ok "Antarctica"); (1, Ok "Japan")])
      by (vm_compute; reflexivity).
    rewrite E1, E2 in H. destruct H as (Hlen & _ & Hout & _).
    split; [|exact Hlen].
    remember (outcome_of _ _ _) as out eqn:Heq. clear Heq.
    vm_compute in Hout. by injection Hout as <-.
  - pose proof (GetWorldHandler_enumeration (stale_count sim_env) (japan_db, visitor)
                  (path "allCountries" "x") Hc) as H.
    cbv zeta in H.
    assert (E1 : first_of pick_count_countries
                   (trace_of (stale_count sim_env)
                      (GetWorldHandler (path "allCountries" "x")) (japan_db, visitor))
                 = Some (Ok 3))
      by (vm_compute; reflexivity).
    assert (E2 : omap pick_nth_country
                   (trace_of (stale_count sim_env)
                      (GetWorldHandler (path "allCountries" "x")) (japan_db, visitor))
                 = [(0, Ok "Antarctica"); (1, Ok "Japan"); (2, Err ErrNoRows)])
      by (vm_compute; reflexivity).
    rewrite E1, E2 in H. destruct H as (Hlen & _ & Hout & _).
    split; [|exact Hlen].
    remember (outcome_of _ _ _) as out eqn:Heq. clear Heq.
    vm_compute in Hout. by injection Hout as <-.
  - pose proof (GetWorldHandler_enumeration sim_env visitor
                  (path "allCountries" "x") Hc) as H.
    cbv zeta in H.
    assert (E1 : first_of pick_count_countries
                   (trace_of sim_env (GetWorldHandler (path "allCountries" "x")) visitor)
                 = Some (Err (ErrOther "dial tcp: connection refused")))
      by (vm_compute; reflexivity).
    rewrite E1 in H. destruct H as [Hlen Hout]. split; [exact Hout|exact Hlen].
Defined.

(** ** The cities of a country, against the store *)

(** X9.  Against the store, for a country that has a row and whose cities
    all have a name, the request for "allCities" makes the lookup of the
    code, the count of the cities with that code, and one query per
    offset from 0 on, each answered with the name at that place of the
    ascending order, and answers 200 with these names as a JSON array of
    strings, one per city of that country.  A country without a city gives
    200 with the body [null], not 404 and not an empty array. *)
Theorem GetWorldHandler_allCities {X} (o : Env X) (x : X) (db : Database)
    (c : Context) (code : string) :
  c_Param c "countryName" ≠ "allCountries" →
  c_Param c "cityName" = "allCities" →
  sql_Get db (Q_country_code (c_Param c "countryName")) = Ok code →
  Forall (λ r, is_Some (Row_Name r)) (cities_of db code) →
  run (with_database o) (GetWorldHandler c) (db, x) =
    (c_JSON StatusOK
       match city_names db code with
       | [] => JNull
       | names => JArray (JString <$> names)
       end,
     (db, x),
     entry (db_Get (Q_country_code (c_Param c "countryName"))) (Ok code)
       :: entry (db_Get (Q_count_cities code)) (Ok (Z.of_nat (length (cities_of db code))))
       :: offset_entries (Q_nth_city code) 0 (city_names db code)) ∧
  length (city_names db code) = length (cities_of db code) ∧
  StronglySorted String.le (city_names db code) ∧
  city_names db code ≡ₚ omap Row_Name (cities_of db code) ∧
  (cities_of db code = [] →
   outcome_of (with_database o) (GetWorldHandler c) (db, x) = c_JSON StatusOK JNull).
Proof.
  intros Hc Hall Hcode Hnames.
  assert (Hrun : run (with_database o) (GetWorldHandler c) (db, x) =
    (c_JSON StatusOK (marshal_strings (city_names db code)), (db, x),
     entry (db_Get (Q_country_code (c_Param c "countryName"))) (Ok code)
       :: entry (db_Get (Q_count_cities code)) (Ok (Z.of_nat (length (cities_of db code))))
       :: offset_entries (Q_nth_city code) 0 (city_names db code))).
  { unfold GetWorldHandler.
    rewrite (bool_decide_eq_false_2 _ Hc), Hall, bool_decide_eq_true_2 by done.
    cbn [run handle with_database fst snd]. rewrite Hcode.
    cbn [run handle with_database fst snd].
    change (sql_Get db (Q_count_cities code))
      with (@Ok Z (Z.of_nat (length (cities_of db code)))).
    cbn -[cities_of]. rewrite Nat2Z.id, <- (city_names_length db code Hnames).
    rewrite (fetch_by_offset_found o db x (Q_nth_city code) _ (city_names db code)).
    - cbn. by rewrite app_nil_r.
    - intros k name Hk. cbn -[order_by_name cities_of].
      destruct (names_all_present _ Hnames) as [-> _].
      rewrite order_by_name_Some, Z.add_0_l. by apply limit_1_offset_found. }
  split; [|split; [|split; [|split]]].
  - rewrite Hrun. unfold marshal_strings. by destruct (city_names db code).
  - by apply city_names_length.
  - apply StronglySorted_merge_sort; apply _.
  - apply merge_sort_Permutation.
  - intros Hnone. unfold outcome_of. rewrite Hrun. cbn.
    unfold city_names. by rewrite Hnone.
Qed.

(** The cities of Japan, call by call; Antarctica has none. *)
Lemma GetWorldHandler_allCities_witness :
  run (with_database sim_env) (GetWorldHandler (path "Japan" "allCities"))
    (japan_db, visitor) =
    (c_JSON StatusOK (JArray [JString "Osaka"; JString "Tokyo"]),
     (japan_db, visitor),
     [entry (db_Get (Q_country_code "Japan")) (Ok "JPN");
      entry (db_Get (Q_count_cities "JPN")) (Ok 2);
      entry (db_Get (Q_nth_city "JPN" 0)) (Ok "Osaka");
      entry (db_Get (Q_nth_city "JPN" 1)) (Ok "Tokyo")]) ∧
  outcome_of (with_database sim_env) (GetWorldHandler (path "Antarctica" "allCities"))
    (japan_db, visitor) = c_JSON StatusOK JNull.
Proof.
  split.
  - pose proof (GetWorldHandler_allCities sim_env visitor japan_db
                  (path "Japan" "allCities") "JPN") as H.
    destruct H as (H & _).
    + vm_compute. discriminate.
    + vm_compute. reflexivity.
    + vm_compute. reflexivity.
    + vm_compute. repeat constructor; by eexists.
    + rewrite H. vm_compute. reflexivity.
  - apply (GetWorldHandler_allCities sim_env visitor japan_db
             (path "Antarctica" "allCities") "ATA").
    + vm_compute. discriminate.
    + vm_compute. reflexivity.
    + vm_compute. reflexivity.
    + vm_compute. constructor.
    + vm_compute. reflexivity.
Defined.

(** ** The two reserved names of the world endpoint *)

(** X13.  "allCountries" and "allCities" are never taken as names.  With
    "allCountries" as the country parameter the city parameter plays no
    part: two such requests run alike, and no code is looked up.  With
    "allCities" as the city parameter no city record is read, so a city
    of that name cannot be fetched. *)
Theorem GetWorldHandler_reserved_names {W} (env : Env W) (w : W) :
  (∀ c1 c2 : Context,
     c_Param c1 "countryName" = "allCountries" →
     c_Param c2 "countryName" = "allCountries" →
     run env (GetWorldHandler c1) w = run env (GetWorldHandler c2) w) ∧
  (∀ c : Context,
     c_Param c "countryName" = "allCountries" →
     Forall (λ en, is_code_lookup en = false) (trace_of env (GetWorldHandler c) w)) ∧
  (∀ c : Context,
     c_Param c "cityName" = "allCities" →
     Forall (λ en, is_city_record en = false) (trace_of env (GetWorldHandler c) w)).
Proof.
  split; [|split].
  - intros c1 c2 H1 H2. unfold GetWorldHandler.
    by rewrite H1, H2, !bool_decide_eq_true_2.
  - intros c Hc. unfold GetWorldHandler. rewrite Hc, bool_decide_eq_true_2 by done.
    unfold trace_of. cbn.
    destruct (handle env (db_Get Q_count_countries) w) as [[n | err] w1].
    + pose proof (fetch_by_offset_inv env Q_nth_country
                    (λ l, c_JSON StatusOK (marshal_strings l)) (λ _, True)
                    (λ en, is_code_lookup en = false) I I (λ _, I) (λ _ _, eq_refl)
                    (Z.to_nat n) 0 [] w1) as [_ H].
      unfold trace_of in H.
      destruct (run env (fetch_by_offset Q_nth_country (Z.to_nat n) 0 [] _) w1)
        as [[o w2] tr].
      cbn in *. by constructor.
    + destruct err; cbn; by repeat constructor.
  - intros c Hc. unfold GetWorldHandler.
    destruct (bool_decide (c_Param c "countryName" = "allCountries")).
    + unfold trace_of. cbn.
      destruct (handle env (db_Get Q_count_countries) w) as [[n | err] w1].
      * pose proof (fetch_by_offset_inv env Q_nth_country
                      (λ l, c_JSON StatusOK (marshal_strings l)) (λ _, True)
                      (λ en, is_city_record en = false) I I (λ _, I) (λ _ _, eq_refl)
                      (Z.to_nat n) 0 [] w1) as [_ H].
        unfold trace_of in H.
        destruct (run env (fetch_by_offset Q_nth_country (Z.to_nat n) 0 [] _) w1)
          as [[o w2] tr].
        cbn in *. by constructor.
      * destruct err; cbn; by repeat constructor.
    + rewrite Hc, bool_decide_eq_true_2 by done. unfold trace_of. cbn.
      destruct (handle env (db_Get (Q_country_code (c_Param c "countryName"))) w)
        as [[code | err] w1]; [|destruct err; cbn; by repeat constructor].
      cbn.
      destruct (handle env (db_Get (Q_count_cities code)) w1) as [[n | err] w2];
        [|destruct err; cbn; by repeat constructor].
      pose proof (fetch_by_offset_inv env (Q_nth_city code)
                    (λ l, c_JSON StatusOK (marshal_strings l)) (λ _, True)
                    (λ en, is_city_record en = false) I I (λ _, I) (λ _ _, eq_refl)
                    (Z.to_nat n) 0 [] w2) as [_ H].
      unfold trace_of in H.
      destruct (run env (fetch_by_offset (Q_nth_city code) (Z.to_nat n) 0 [] _) w2)
        as [[o w3] tr].
      cbn in *. by repeat constructor.
Qed.

(** The answer to "allCountries" with two different city parameters. *)
Lemma GetWorldHandler_reserved_names_witness :
  run (with_database sim_env) (GetWorldHandler (path "allCountries" "allCities"))
    (japan_db, visitor) =
  run (with_database sim_env) (GetWorldHandler (path "allCountries" "Tokyo"))
    (japan_db, visitor).
Proof.
  apply (proj1 (GetWorldHandler_reserved_names (with_database sim_env) (japan_db, visitor))).
  - vm_compute. reflexivity.
  - vm_compute. reflexivity.
Defined.

(** ** What log-in leaves in the session *)

(** X14.  When log-in saves the session, the saved session holds the
    username of the request under "userName", replacing what was there,
    and under every other key what the fetched session held. *)
Theorem LoginHandler_session_values {W} (env : Env W) (w : W) (c : Context) :
  match first_of pick_login_body (trace_of env (LoginHandler c) w),
        first_of pick_session (trace_of env (LoginHandler c) w),
        first_of pick_save (trace_of env (LoginHandler c) w) with
  | Some (Ok req), Some (Ok sess), Some (saved, _) =>
      Values_get saved "userName" = VString (Req_Username req) ∧
      ∀ key, key ≠ "userName" → Values_get saved key = Values_get sess key
  | _, _, Some _ => False
  | _, _, None => True
  end.
Proof.
  unfold LoginHandler. run_handler; try done.
  all: split; [apply Values_get_set|].
  all: intros key Hkey; unfold Values_get, Values_set; cbn.
  all: by rewrite lookup_insert_ne.
Qed.
